(** * Mock bank bot (src/main.py): confirmation dialogue and ledger update

    A shallow embedding of the five handlers of [src/main.py] ([start],
    [button], [handle_amount], [handle_confirmation],
    [handle_invalid_response]) and of the handler table built in [main],
    over an explicit world made of the [users] collection, the per-user
    [context.user_data] dictionaries and the messages sent back to the chat.

    Python objects are dynamically typed, so dictionaries are finite maps
    from field names to Python values, and every operation that Python can
    reject at run time returns an exception here. *)

From Stdlib Require Import ZArith Ascii String List Lia Bool.
From stdpp Require Import base option list strings pretty gmap fin_maps.

Local Open Scope string_scope.
Local Open Scope Z_scope.

(** ** Python values *)

Module Py.

Inductive value : Type :=
  | None_
  | Bool (b : bool)
  | Int (z : Z)
  | Str (s : string).

#[global] Instance value_eq_dec : EqDecision value.
Proof. solve_decision. Defined.

Inductive exn : Type :=
  | TypeError
  | AttributeError
  | KeyError
  | IndexError
  | ValueError.

#[global] Instance exn_eq_dec : EqDecision exn.
Proof. solve_decision. Defined.

(** [bool(v)]: the truth value Python gives to [v] in an [if]. *)
Definition truthy (v : value) : bool :=
  match v with
  | None_ => false
  | Bool b => b
  | Int z => negb (z =? 0)
  | Str s => negb (String.eqb s EmptyString)
  end.

(** [bool] is a subclass of [int]: [True] counts as 1 in arithmetic. *)
Definition as_int (v : value) : option Z :=
  match v with
  | Int z => Some z
  | Bool b => Some (if b then 1 else 0)
  | _ => None
  end.

(** [a + b] *)
Definition add (a b : value) : exn + value :=
  match as_int a, as_int b with
  | Some x, Some y => inr (Int (x + y))
  | _, _ =>
      match a, b with
      | Str s, Str t => inr (Str (s +:+ t))
      | _, _ => inl TypeError
      end
  end.

(** [a - b] *)
Definition sub (a b : value) : exn + value :=
  match as_int a, as_int b with
  | Some x, Some y => inr (Int (x - y))
  | _, _ => inl TypeError
  end.

(** [a > b] *)
Definition gt (a b : value) : exn + bool :=
  match as_int a, as_int b with
  | Some x, Some y => inr (y <? x)
  | _, _ =>
      match a, b with
      | Str s, Str t => inr (String.ltb t s)
      | _, _ => inl TypeError
      end
  end.

(** [a <= b] *)
Definition le (a b : value) : exn + bool :=
  match as_int a, as_int b with
  | Some x, Some y => inr (x <=? y)
  | _, _ =>
      match a, b with
      | Str s, Str t => inr (String.leb s t)
      | _, _ => inl TypeError
      end
  end.

(** [a == b]: numbers compare by value, everything else structurally. *)
Definition eqb (a b : value) : bool :=
  match as_int a, as_int b with
  | Some x, Some y => x =? y
  | _, _ => bool_decide (a = b)
  end.

(** [str(v)], which is also what an f-string field [{v}] prints. *)
Definition str (v : value) : string :=
  match v with
  | None_ => "None"
  | Bool true => "True"
  | Bool false => "False"
  | Int z => pretty z
  | Str s => s
  end.

(** *** Text *)

(** The characters [str.isspace] accepts, among the 7-bit ones. *)
Definition isspace (c : ascii) : bool :=
  let n := nat_of_ascii c in
  ((9 <=? n) && (n <=? 13) || (28 <=? n) && (n <=? 32))%nat.

Definition isdigit (c : ascii) : bool :=
  let n := nat_of_ascii c in ((48 <=? n) && (n <=? 57))%nat.

Definition digit_val (c : ascii) : Z := Z.of_nat (nat_of_ascii c) - 48.

Fixpoint lstrip (s : string) : string :=
  match s with
  | String c s' => if isspace c then lstrip s' else s
  | EmptyString => EmptyString
  end.

(** [s.rstrip()]: a character is kept when something other than white
    space follows it or it is not white space itself. *)
Fixpoint rstrip (s : string) : string :=
  match s with
  | String c s' =>
      match rstrip s' with
      | EmptyString => if isspace c then EmptyString else String c EmptyString
      | r => String c r
      end
  | EmptyString => EmptyString
  end.

(** [s.strip()] *)
Definition strip (s : string) : string := rstrip (lstrip s).

Definition lower_char (c : ascii) : ascii :=
  let n := nat_of_ascii c in
  if ((65 <=? n) && (n <=? 90))%nat then ascii_of_nat (n + 32) else c.

(** [s.lower()] *)
Fixpoint lower (s : string) : string :=
  match s with
  | String c s' => String (lower_char c) (lower s')
  | EmptyString => EmptyString
  end.

(** [s.split(sep)] for a non-empty [sep]: occurrences are taken from the
    left and do not overlap. [skip] counts the characters of an occurrence
    still to be dropped, [cur] is the piece being collected. *)
Fixpoint split_go (sep : string) (skip : nat) (cur s : string) : list string :=
  match s with
  | EmptyString => [cur]
  | String c s' =>
      match skip with
      | S k => split_go sep k cur s'
      | O =>
          if String.prefix sep s
          then cur :: split_go sep (String.length sep - 1) "" s'
          else split_go sep 0 (cur +:+ String c "") s'
      end
  end.

Definition split (sep s : string) : list string := split_go sep 0 "" s.

(** The digits of an integer literal: decimal digits, where single
    underscores may separate two digits. [seen] tells whether the previous
    character was a digit. *)
Fixpoint int_digits (acc : Z) (seen : bool) (s : string) : option Z :=
  match s with
  | EmptyString => if seen then Some acc else None
  | String c s' =>
      if isdigit c then int_digits (10 * acc + digit_val c) true s'
      else if Ascii.eqb c "_" then (if seen then int_digits acc false s' else None)
      else None
  end.

(** [int(s)] for a string: surrounding white space is ignored, one sign is
    allowed, anything else raises ValueError. (Digits outside ASCII and the
    interpreter's limit on the length of a literal are outside this model.) *)
Definition int (s : string) : exn + Z :=
  let body :=
    match strip s with
    | String "-" r => option_map Z.opp (int_digits 0 false r)
    | String "+" r => int_digits 0 false r
    | r => int_digits 0 false r
    end in
  match body with
  | Some z => inr z
  | None => inl ValueError
  end.

End Py.

(** ** [datetime]: printing and parsing of time stamps *)

Module DateTime.

Record t : Type := Make {
  year : Z; month : Z; day : Z;
  hour : Z; minute : Z; second : Z;
  microsecond : Z
}.

(** ["%0nd" % z] for a non-negative [z] *)
Definition zfill (n : nat) (z : Z) : string :=
  let d := pretty z in
  String.concat "" (replicate (n - String.length d) "0") +:+ d.

(** [str(dt)], that is [dt.isoformat(sep=' ')]: the fraction is printed
    only when [microsecond] is not zero. *)
Definition str (dt : t) : string :=
  zfill 4 (year dt) +:+ "-" +:+ zfill 2 (month dt) +:+ "-" +:+ zfill 2 (day dt)
  +:+ " " +:+ zfill 2 (hour dt) +:+ ":" +:+ zfill 2 (minute dt) +:+ ":"
  +:+ zfill 2 (second dt)
  +:+ (if microsecond dt =? 0 then "" else "." +:+ zfill 6 (microsecond dt)).

(** [dt.strftime('%d/%m/%Y %H:%M:%S')] *)
Definition strftime_display (dt : t) : string :=
  zfill 2 (day dt) +:+ "/" +:+ zfill 2 (month dt) +:+ "/" +:+ zfill 4 (year dt)
  +:+ " " +:+ zfill 2 (hour dt) +:+ ":" +:+ zfill 2 (minute dt) +:+ ":"
  +:+ zfill 2 (second dt).

(** *** [datetime.strptime(s, '%Y-%m-%d %H:%M:%S.%f')]

    The library turns the format into the regular expression
<<
    (\d\d\d\d)-(1[0-2]|0[1-9]|[1-9])-(3[0-1]|[1-2]\d|0[1-9]|[1-9]| [1-9])
    \s+(2[0-3]|[0-1]\d|\d):([0-5]\d|\d):(6[0-1]|[0-5]\d|\d)\.([0-9]{1,6})
>>
    matches it at the start of the string, and raises ValueError when it
    does not match, when text remains after the match, or when the fields
    are not a date. Each piece below takes the rest of the expression as a
    continuation, so that an alternative that matches is given up when the
    rest fails after it, as the backtracking matcher does. *)

Section Matcher.
Context {R : Type}.

Definition orelse (a b : option R) : option R :=
  match a with Some r => Some r | None => b end.

Definition in_range (lo hi : Z) (c : ascii) : bool :=
  Py.isdigit c && (lo <=? Py.digit_val c) && (Py.digit_val c <=? hi).

(** [[lo-hi]] *)
Definition one (lo hi : Z) (k : Z -> string -> option R) (s : string) : option R :=
  match s with
  | String c r => if in_range lo hi c then k (Py.digit_val c) r else None
  | EmptyString => None
  end.

(** [[lo1-hi1][lo2-hi2]] *)
Definition two (lo1 hi1 lo2 hi2 : Z) (k : Z -> string -> option R) (s : string)
  : option R :=
  match s with
  | String c (String c' r) =>
      if in_range lo1 hi1 c && in_range lo2 hi2 c'
      then k (10 * Py.digit_val c + Py.digit_val c') r else None
  | _ => None
  end.

(** a literal character *)
Definition lit (a : ascii) (k : string -> option R) (s : string) : option R :=
  match s with
  | String c r => if Ascii.eqb c a then k r else None
  | EmptyString => None
  end.

(** [\s*], longest first *)
Fixpoint spaces (k : string -> option R) (s : string) : option R :=
  match s with
  | String c r => if Py.isspace c then orelse (spaces k r) (k s) else k s
  | EmptyString => k s
  end.

(** [\s+] *)
Definition spaces1 (k : string -> option R) (s : string) : option R :=
  match s with
  | String c r => if Py.isspace c then spaces k r else None
  | EmptyString => None
  end.

Definition pY (k : Z -> string -> option R) : string -> option R :=
  one 0 9 (fun a => one 0 9 (fun b => one 0 9 (fun c => one 0 9 (fun d =>
    k (1000 * a + 100 * b + 10 * c + d))))).

Definition pm (k : Z -> string -> option R) (s : string) : option R :=
  orelse (two 1 1 0 2 k s) (orelse (two 0 0 1 9 k s) (one 1 9 k s)).

Definition pd (k : Z -> string -> option R) (s : string) : option R :=
  orelse (two 3 3 0 1 k s) (orelse (two 1 2 0 9 k s) (orelse (two 0 0 1 9 k s)
    (orelse (one 1 9 k s) (lit " " (one 1 9 k) s)))).

Definition pH (k : Z -> string -> option R) (s : string) : option R :=
  orelse (two 2 2 0 3 k s) (orelse (two 0 1 0 9 k s) (one 0 9 k s)).

Definition pM (k : Z -> string -> option R) (s : string) : option R :=
  orelse (two 0 5 0 9 k s) (one 0 9 k s).

Definition pS (k : Z -> string -> option R) (s : string) : option R :=
  orelse (two 6 6 0 1 k s) (orelse (two 0 5 0 9 k s) (one 0 9 k s)).
End Matcher.

(** [[0-9]{1,6}] at the end of the expression: up to [n] digits, as many as
    there are. Returns the digits and what follows them. *)
Fixpoint digits_upto (n : nat) (s : string) : string * string :=
  match n, s with
  | S n', String c r =>
      if Py.isdigit c
      then let '(ds, rest) := digits_upto n' r in (String c ds, rest)
      else (EmptyString, s)
  | _, _ => (EmptyString, s)
  end.

Fixpoint digits_value (acc : Z) (s : string) : Z :=
  match s with
  | String c r => digits_value (10 * acc + Py.digit_val c) r
  | EmptyString => acc
  end.

(** The value of [%f]: the digits are padded with zeros on the right to six
    places. *)
Definition fraction_value (ds : string) : Z :=
  digits_value 0 ds * 10 ^ Z.of_nat (6 - String.length ds).

Definition pf {R} (k : Z -> string -> option R) (s : string) : option R :=
  match digits_upto 6 s with
  | (EmptyString, _) => None
  | (ds, rest) => k (fraction_value ds) rest
  end.

Definition is_leap (y : Z) : bool :=
  (y mod 4 =? 0) && (negb (y mod 100 =? 0) || (y mod 400 =? 0)).

Definition days_in_month (y m : Z) : Z :=
  if m =? 2 then (if is_leap y then 29 else 28)
  else if (m =? 4) || (m =? 6) || (m =? 9) || (m =? 11) then 30 else 31.

(** What the [datetime] constructor accepts. *)
Definition valid (dt : t) : bool :=
  (1 <=? year dt) && (year dt <=? 9999) && (1 <=? month dt) && (month dt <=? 12)
  && (1 <=? day dt) && (day dt <=? days_in_month (year dt) (month dt))
  && (0 <=? hour dt) && (hour dt <=? 23) && (0 <=? minute dt) && (minute dt <=? 59)
  && (0 <=? second dt) && (second dt <=? 59)
  && (0 <=? microsecond dt) && (microsecond dt <=? 999999).

(** The match of the regular expression: the fields and the unread rest. *)
Definition match_format (s : string) : option (t * string) :=
  pY (fun Y => lit "-" (pm (fun m => lit "-" (pd (fun d => spaces1 (
  pH (fun H => lit ":" (pM (fun M => lit ":" (pS (fun S => lit "." (
  pf (fun f rest => Some (Make Y m d H M S f, rest)))))))))))))) s.

Definition strptime (s : string) : Py.exn + t :=
  match match_format s with
  | Some (dt, EmptyString) => if valid dt then inr dt else inl Py.ValueError
  | _ => inl Py.ValueError
  end.

(** A string carries a fraction of a second when it ends with a dot and
    one to six digits. *)
Definition is_fraction (f : string) : bool :=
  match digits_upto 6 f with
  | (String _ _, EmptyString) => true
  | _ => false
  end.

Fixpoint has_fraction (s : string) : bool :=
  match s with
  | String c r => (Ascii.eqb c "." && is_fraction r) || has_fraction r
  | EmptyString => false
  end.

End DateTime.

(** ** The world the handlers run in *)

(** A document of the [users] collection and a [context.user_data]
    dictionary are both dictionaries from field names to values. *)
Abbreviation dict := (gmap string Py.value).

(** What the bot sends to the chat. *)
Inductive sent : Type :=
  | Answer
  | EditMessageText (text : string)
  | ReplyText (text : string) (reply_markup : list (list (string * string))).

Record world : Type := World {
  users : list dict;
  user_data : gmap Z dict;
  outbox : list sent
}.

Definition initial : world := World [] ∅ [].

(** *** The collection *)

(** The filter [{"user_id": uid}] *)
Definition matches (uid : Z) (d : dict) : bool :=
  match d !! "user_id" with
  | Some v => Py.eqb v (Py.Int uid)
  | None => false
  end.

(** [users.find_one({"user_id": uid})]: the first document that matches. *)
Fixpoint find_one (uid : Z) (c : list dict) : option dict :=
  match c with
  | d :: c' => if matches uid d then Some d else find_one uid c'
  | [] => None
  end.

(** [users.insert_one(d)] *)
Definition insert_one (d : dict) (c : list dict) : list dict := c ++ [d].

(** [users.update_one({"user_id": uid}, {"$set": sets})]: the fields of
    [sets] replace those of the first document that matches; without a
    match nothing is written. *)
Fixpoint update_one (uid : Z) (sets : dict) (c : list dict) : list dict :=
  match c with
  | d :: c' => if matches uid d then (sets ∪ d) :: c' else d :: update_one uid sets c'
  | [] => []
  end.

(** *** Handlers as state transformers that may raise *)

Definition M (A : Type) : Type := world -> (Py.exn + A) * world.

Definition ret {A} (a : A) : M A := fun w => (inr a, w).

Definition raise {A} (e : Py.exn) : M A := fun w => (inl e, w).

Definition bind {A B} (m : M A) (k : A -> M B) : M B :=
  fun w =>
    match m w with
    | (inr a, w') => k a w'
    | (inl e, w') => (inl e, w')
    end.

Notation "'do' x <- m ; k" := (bind m (fun x => k))
  (at level 10, x name, m at level 100, k at level 200).
Notation "m ;; k" := (bind m (fun _ => k))
  (at level 100, k at level 200, right associativity).

(** A Python expression that either has a value or raises. *)
Definition lift {A} (r : Py.exn + A) : M A :=
  match r with
  | inr a => ret a
  | inl e => raise e
  end.

(** [try: body / except ValueError: handler] *)
Definition try_except_ValueError (body handler : M unit) : M unit :=
  fun w =>
    match body w with
    | (inl Py.ValueError, w') => handler w'
    | r => r
    end.

Definition send (m : sent) : M unit :=
  fun w => (inr tt, World (users w) (user_data w) (outbox w ++ [m])).

Definition reply_text (text : string) : M unit := send (ReplyText text []).

Definition edit_message_text (text : string) : M unit := send (EditMessageText text).

Definition users_find_one (uid : Z) : M (option dict) :=
  fun w => (inr (find_one uid (users w)), w).

Definition users_insert_one (d : dict) : M unit :=
  fun w => (inr tt, World (insert_one d (users w)) (user_data w) (outbox w)).

Definition users_update_one (uid : Z) (sets : dict) : M unit :=
  fun w => (inr tt, World (update_one uid sets (users w)) (user_data w) (outbox w)).

(** [context.user_data] of a user: an empty dictionary until written. *)
Definition session (uid : Z) (w : world) : dict := default ∅ (user_data w !! uid).

(** [context.user_data.get(key)] *)
Definition user_data_get (uid : Z) (key : string) : M Py.value :=
  fun w => (inr (default Py.None_ (session uid w !! key)), w).

(** [context.user_data[key] = v] *)
Definition user_data_set (uid : Z) (key : string) (v : Py.value) : M unit :=
  fun w => (inr tt,
            World (users w) (<[uid := <[key := v]> (session uid w)]> (user_data w))
                  (outbox w)).

(** [user[key]] where [user] is what [find_one] returned. *)
Definition subscript (user : option dict) (key : string) : Py.exn + Py.value :=
  match user with
  | None => inl Py.TypeError
  | Some d =>
      match d !! key with
      | Some v => inr v
      | None => inl Py.KeyError
      end
  end.

(** [user.get(key, dflt)] *)
Definition get_default (user : option dict) (key : string) (dflt : Py.value)
  : Py.exn + Py.value :=
  match user with
  | None => inl Py.AttributeError
  | Some d => inr (default dflt (d !! key))
  end.

(** [v.split(sep)]: only strings have the method. *)
Definition method_split (v : Py.value) (sep : string) : Py.exn + list string :=
  match v with
  | Py.Str s => inr (Py.split sep s)
  | _ => inl Py.AttributeError
  end.

(** [l[-1]] and [l[0]] *)
Definition index_last (l : list string) : Py.exn + string :=
  match last l with
  | Some x => inr x
  | None => inl Py.IndexError
  end.

Definition index_first (l : list string) : Py.exn + string :=
  match l with
  | x :: _ => inr x
  | [] => inl Py.IndexError
  end.

Definition newline : string := String (ascii_of_nat 10) EmptyString.

(** ** The handlers of src/main.py *)

Definition keyboard : list (list (string * string)) :=
  [ [("Check Balance", "check_balance")];
    [("Deposit", "deposit")];
    [("Withdraw", "withdraw")] ].

(** The document [start] inserts (the identifier the store adds to it is
    left out: no handler reads it). *)
Definition new_user (uid : Z) : dict :=
  <["user_id" := Py.Int uid]> (<["balance" := Py.Int 0]>
    (<["last_transaction" := Py.None_]> ∅)).

(** [start]: the /start command. *)
Definition start (uid : Z) : M unit :=
  do found <- users_find_one uid;
  (if negb (bool_decide (is_Some found))
   then users_insert_one (new_user uid)
   else ret tt) ;;
  send (ReplyText "Welcome to the Mock Bank Bot! Choose an option:" keyboard).

Definition no_transactions : string := "No transactions yet".

(** [button]: a press on one of the three buttons. *)
Definition button (uid : Z) (data : string) : M unit :=
  send Answer ;;
  do user <- users_find_one uid;
  if String.eqb data "check_balance" then
    do last_transaction <-
      lift (get_default user "last_transaction" (Py.Str no_transactions));
    do formatted_last_transaction <-
      (if negb (Py.eqb last_transaction (Py.Str no_transactions)) then
         do transaction_details <- lift (method_split last_transaction " on ");
         do transaction_time_str <- lift (index_last transaction_details);
         do transaction_time <- lift (DateTime.strptime transaction_time_str);
         let formatted_time := DateTime.strftime_display transaction_time in
         do first <- lift (index_first transaction_details);
         ret (first +:+ " on " +:+ formatted_time)
       else ret no_transactions);
    do balance <- lift (subscript user "balance");
    edit_message_text ("Your balance is: " +:+ Py.str balance +:+ newline
                       +:+ "Last transaction: " +:+ formatted_last_transaction)
  else if String.eqb data "deposit" then
    user_data_set uid "action" (Py.Str "deposit") ;;
    edit_message_text "How much would you like to deposit?"
  else if String.eqb data "withdraw" then
    user_data_set uid "action" (Py.Str "withdraw") ;;
    edit_message_text "How much would you like to withdraw?"
  else ret tt.

Definition reprompt : string := "Please respond with 'confirm' or 'cancel'.".

(** [handle_invalid_response] *)
Definition handle_invalid_response (uid : Z) : M unit :=
  do confirming <- user_data_get uid "confirming";
  if Py.truthy confirming then reply_text reprompt else ret tt.

(** [handle_amount]: a text message taken as an amount. *)
Definition handle_amount (uid : Z) (text : string) : M unit :=
  do confirming <- user_data_get uid "confirming";
  if Py.truthy confirming then handle_invalid_response uid
  else
    do user <- users_find_one uid;
    do action <- user_data_get uid "action";
    if bool_decide (action = Py.None_) then
      reply_text "Please start the transaction again."
    else
      try_except_ValueError
        (do amount <- lift (Py.int (Py.strip text));
         if amount <=? 0 then reply_text "Please enter a value greater than 0."
         else
           user_data_set uid "amount" (Py.Int amount) ;;
           reply_text ("You entered: " +:+ pretty amount
                       +:+ ". Type 'confirm' to proceed or 'cancel' to cancel.") ;;
           user_data_set uid "confirming" (Py.Bool true))
        (reply_text "Please enter a valid number.").

(** The [$set] document of a ledger write. *)
Definition ledger_write (new_balance : Py.value) (last_transaction : string) : dict :=
  <["balance" := new_balance]> (<["last_transaction" := Py.Str last_transaction]> ∅).

(** [handle_confirmation]: a text message taken as the answer to the
    confirmation prompt. [now] is what [datetime.now()] returns during the
    call. *)
Definition handle_confirmation (now : DateTime.t) (uid : Z) (text : string) : M unit :=
  do confirming <- user_data_get uid "confirming";
  if Py.truthy confirming then
    let confirmation_input := Py.lower (Py.strip text) in
    do user <- users_find_one uid;
    do action <- user_data_get uid "action";
    do amount <- user_data_get uid "amount";
    if String.eqb confirmation_input "confirm" then
      (if Py.eqb action (Py.Str "deposit") then
         do balance <- lift (subscript user "balance");
         do new_balance <- lift (Py.add balance amount);
         users_update_one uid
           (ledger_write new_balance
              ("Deposited " +:+ Py.str amount +:+ " on " +:+ DateTime.str now)) ;;
         reply_text ("Deposited " +:+ Py.str amount +:+ ". New balance: "
                     +:+ Py.str new_balance)
       else if Py.eqb action (Py.Str "withdraw") then
         do balance <- lift (subscript user "balance");
         do too_much <- lift (Py.gt amount balance);
         if too_much then reply_text "Insufficient balance."
         else
           do non_positive <- lift (Py.le amount (Py.Int 0));
           if non_positive then reply_text "Please enter a value greater than 0."
           else
             do new_balance <- lift (Py.sub balance amount);
             users_update_one uid
               (ledger_write new_balance
                  ("Withdrew " +:+ Py.str amount +:+ " on " +:+ DateTime.str now)) ;;
             reply_text ("Withdrew " +:+ Py.str amount +:+ ". New balance: "
                         +:+ Py.str new_balance)
       else ret tt) ;;
      user_data_set uid "confirming" (Py.Bool false)
    else if String.eqb confirmation_input "cancel" then
      reply_text "Transaction cancelled." ;;
      user_data_set uid "confirming" (Py.Bool false) ;;
      user_data_set uid "action" Py.None_ ;;
      user_data_set uid "amount" Py.None_
    else reply_text reprompt
  else reply_text "Please start a transaction first.".

(** ** The handler table of [main] *)

(** An update as the transport delivers it: the /start command, a button
    press with its callback data, or any other message with its text
    ([is_command] tells whether the text starts with a bot command; a
    message without text has the empty text). *)
Inductive update : Type :=
  | StartCommand (uid : Z)
  | CallbackQuery (uid : Z) (data : string)
  | Message (uid : Z) (text : string) (is_command : bool).

(** [filters.TEXT] *)
Definition filter_TEXT (text : string) : bool := negb (String.eqb text EmptyString).

(** [filters.Regex('^(confirm|cancel)$')]: the pattern is searched in the
    text as it is; [$] also matches before a final newline. *)
Definition filter_Regex (text : string) : bool :=
  String.eqb text "confirm" || String.eqb text "cancel"
  || String.eqb text ("confirm" +:+ newline) || String.eqb text ("cancel" +:+ newline).

(** All handlers are in one group: the first whose filter accepts the
    update handles it, and no other handler runs. *)
Definition dispatch (now : DateTime.t) (u : update) : M unit :=
  match u with
  | StartCommand uid => start uid
  | CallbackQuery uid data => button uid data
  | Message uid text is_command =>
      if filter_TEXT text && negb is_command && negb (filter_Regex text)
      then handle_amount uid text
      else if filter_TEXT text && filter_Regex text
      then handle_confirmation now uid text
      else if filter_TEXT text then handle_invalid_response uid
      else ret tt
  end.

(** One update handled to completion. An exception raised by a handler is
    logged by the application, which goes on with the next update: what the
    handler wrote before raising stays. *)
Definition step (w : world) (e : DateTime.t * update) : world :=
  snd (dispatch (fst e) (snd e) w).

Definition run (w : world) (es : list (DateTime.t * update)) : world :=
  fold_left step es w.

Definition reachable (w : world) : Prop := exists es, w = run initial es.

(** The persisted fields of a user, as [find_one] shows them. *)
Definition persisted (uid : Z) (key : string) (w : world) : option Py.value :=
  find_one uid (users w) ≫= (fun d => d !! key).

(** ** The invariant of the reachable worlds *)

(** A persisted record: an integer balance that is not negative, and a last
    transaction that is either absent ([None]) or a text other than the
    text shown for no transaction. *)
Definition doc_ok (d : dict) : Prop :=
  (exists b, d !! "balance" = Some (Py.Int b) /\ 0 <= b)
  /\ (d !! "last_transaction" = Some Py.None_
      \/ exists s, d !! "last_transaction" = Some (Py.Str s) /\ s <> no_transactions).

(** The action of a session is unset, [None], or one of the two choices. *)
Definition action_ok (ud : dict) : Prop :=
  ud !! "action" = None \/ ud !! "action" = Some Py.None_
  \/ ud !! "action" = Some (Py.Str "deposit")
  \/ ud !! "action" = Some (Py.Str "withdraw").

(** The session is waiting for the confirmation:
    [context.user_data.get('confirming')] is true. *)
Definition confirming (ud : dict) : bool :=
  Py.truthy (default Py.None_ (ud !! "confirming")).

(** A session: while the confirmation flag is set, an action is chosen and
    the amount is a positive integer. *)
Definition session_ok (ud : dict) : Prop :=
  action_ok ud
  /\ (confirming ud = true ->
      (exists a, ud !! "amount" = Some (Py.Int a) /\ 0 < a)
      /\ (ud !! "action" = Some (Py.Str "deposit")
          \/ ud !! "action" = Some (Py.Str "withdraw"))).

Definition Inv (w : world) : Prop :=
  Forall doc_ok (users w) /\ forall uid, session_ok (session uid w).

(** Two clock readings used in the examples: one on a whole second, one
    with a fraction. *)
Definition t0 : DateTime.t := DateTime.Make 2024 1 2 3 4 5 0.
Definition t1 : DateTime.t := DateTime.Make 2024 1 2 3 4 5 6.

(** A record with a given balance and no transaction yet, and a world in
    which user 7 has that record and waits for the confirmation of [verb]
    with amount [a]; both are used in the examples. *)
Definition registered (bal : Z) : dict := <["balance" := Py.Int bal]> (new_user 7).

Definition awaiting (bal : Z) (verb : string) (a : Z) : world :=
  World [registered bal]
        {[ 7 := <["confirming" := Py.Bool true]> (<["amount" := Py.Int a]>
                  (<["action" := Py.Str verb]> ∅)) ]}
        [].

(** The user an update comes from, and whether it is the /start command. *)
Definition sender (u : update) : Z :=
  match u with
  | StartCommand uid | CallbackQuery uid _ | Message uid _ _ => uid
  end.

Definition is_start (u : update) : bool :=
  match u with StartCommand _ => true | _ => false end.

(** The records of a user in the collection. *)
Definition records (uid : Z) (c : list dict) : list dict :=
  List.filter (matches uid) c.

(** Every character of a text passes a test. *)
Fixpoint string_forall (P : ascii -> bool) (s : string) : bool :=
  match s with
  | String c r => P c && string_forall P r
  | EmptyString => true
  end.

(** The characters of a printed integer. *)
Definition numeric (c : ascii) : bool := Py.isdigit c || Ascii.eqb c "-".

(** The characters of a number or of a time stamp printed on a whole
    second. *)
Definition plain (c : ascii) : bool :=
  Py.isdigit c || Ascii.eqb c "-" || Ascii.eqb c ":" || Ascii.eqb c " ".

(** [k] zeros, and the last [n] decimal digits of [x] in front of [s]. *)
Fixpoint zeros (k : nat) : string :=
  match k with
  | O => EmptyString
  | S k' => String "0" (zeros k')
  end.

Fixpoint fixed (n : nat) (x : N) (s : string) : string :=
  match n with
  | O => s
  | S n' => fixed n' (x `div` 10)%N (String (pretty_N_char (x `mod` 10)%N) s)
  end.

(** * Properties *)

Example strip_ex : Py.strip "  confirm " = "confirm".
Proof. reflexivity. Qed.

Example lower_ex : Py.lower "CoNfirm" = "confirm".
Proof. reflexivity. Qed.

Example split_ex :
  Py.split " on " "Deposited 50 on 2024-01-02 03:04:05.000006"
  = ["Deposited 50"; "2024-01-02 03:04:05.000006"].
Proof. reflexivity. Qed.

Example split_none_ex : Py.split " on " "abc" = ["abc"].
Proof. reflexivity. Qed.

Example int_ex : Py.int " 1_000 " = inr 1000 /\ Py.int "-5" = inr (-5)
  /\ Py.int "abc" = inl Py.ValueError /\ Py.int "" = inl Py.ValueError
  /\ Py.int "1__0" = inl Py.ValueError /\ Py.int "+7" = inr 7.
Proof. repeat split; reflexivity. Qed.

Example str_ex : Py.str (Py.Int 50) = "50" /\ Py.str (Py.Int (-3)) = "-3".
Proof. split; reflexivity. Qed.

Example datetime_str_ex :
  DateTime.str (DateTime.Make 2024 1 2 3 4 5 6) = "2024-01-02 03:04:05.000006"
  /\ DateTime.str (DateTime.Make 2024 1 2 3 4 5 0) = "2024-01-02 03:04:05".
Proof. split; reflexivity. Qed.

Example strptime_ex :
  DateTime.strptime "2024-01-02 03:04:05.000006" = inr (DateTime.Make 2024 1 2 3 4 5 6)
  /\ DateTime.strptime "2024-01-02 03:04:05" = inl Py.ValueError
  /\ DateTime.strptime "2024-1-2  3:4:5.5" = inr (DateTime.Make 2024 1 2 3 4 5 500000)
  /\ DateTime.strptime "2024-13-02 03:04:05.1" = inl Py.ValueError
  /\ DateTime.strptime "2023-02-29 03:04:05.1" = inl Py.ValueError
  /\ DateTime.strptime "2024-01-02 03:04:05.1234567" = inl Py.ValueError.
Proof. repeat split; reflexivity. Qed.

Example strftime_ex :
  DateTime.strftime_display (DateTime.Make 2024 1 2 3 4 5 6) = "02/01/2024 03:04:05".
Proof. reflexivity. Qed.

Example scenario2 :
  let w := run initial [(t1, StartCommand 7); (t1, CallbackQuery 7 "deposit");
                        (t1, Message 7 "50" false); (t1, Message 7 "confirm" false)] in
  persisted 7 "balance" w = Some (Py.Int 50)
  /\ persisted 7 "last_transaction" w
     = Some (Py.Str "Deposited 50 on 2024-01-02 03:04:05.000006")
  /\ last (outbox w) = Some (ReplyText "Deposited 50. New balance: 50" []).
Proof. vm_compute. repeat split; reflexivity. Qed.

Example scenario2_inquiry :
  let w := run initial [(t1, StartCommand 7); (t1, CallbackQuery 7 "deposit");
                        (t1, Message 7 "50" false); (t1, Message 7 "confirm" false);
                        (t1, CallbackQuery 7 "check_balance")] in
  last (outbox w)
  = Some (EditMessageText ("Your balance is: 50" +:+ newline
            +:+ "Last transaction: Deposited 50 on 02/01/2024 03:04:05")).
Proof. vm_compute. reflexivity. Qed.

(** ** The store *)

Section Store.
Implicit Types (c : list dict) (d sets : dict) (uid : Z).

Lemma matches_set uid sets d :
  sets !! "user_id" = None -> matches uid (sets ∪ d) = matches uid d.
Proof.
  intros Hs. unfold matches.
  replace ((sets ∪ d) !! "user_id") with (d !! "user_id"); [done|].
  symmetry. apply lookup_union_r, Hs.
Qed.

Lemma find_one_update_one uid sets c d :
  sets !! "user_id" = None ->
  find_one uid c = Some d ->
  find_one uid (update_one uid sets c) = Some (sets ∪ d).
Proof.
  intros Hs. induction c as [|d' c IH]; simpl; [done|].
  destruct (matches uid d') eqn:Hm; simpl.
  - intros [= ->]. by rewrite matches_set, Hm.
  - rewrite Hm. exact IH.
Qed.

Lemma update_one_absent uid sets c :
  find_one uid c = None -> update_one uid sets c = c.
Proof.
  induction c as [|d' c IH]; simpl; [done|].
  destruct (matches uid d'); [done|]. intros H. by rewrite IH.
Qed.

Lemma find_one_matches uid c d : find_one uid c = Some d -> matches uid d = true.
Proof.
  induction c as [|d' c IH]; simpl; [done|].
  destruct (matches uid d') eqn:Hm; [by intros [= <-]|done].
Qed.

Lemma find_one_elem uid c d : find_one uid c = Some d -> d ∈ c.
Proof.
  induction c as [|d' c IH]; simpl; [done|].
  destruct (matches uid d'); [intros [= <-]; left|intros; right; auto].
Qed.

Lemma find_one_insert_one uid c d :
  find_one uid c = None -> matches uid d = true ->
  find_one uid (insert_one d c) = Some d.
Proof.
  intros Hn Hm. unfold insert_one. induction c as [|d' c IH]; simpl in *.
  - by rewrite Hm.
  - destruct (matches uid d'); [done|auto].
Qed.

Lemma Forall_update_one (P : dict -> Prop) uid sets c :
  (forall d, P d -> P (sets ∪ d)) -> Forall P c -> Forall P (update_one uid sets c).
Proof.
  intros HP. induction 1 as [|d c Hd Hc IH]; simpl; [constructor|].
  destruct (matches uid d); constructor; auto.
Qed.
End Store.

(** ** Preservation of the invariant *)

Ltac run_handler :=
  unfold lift, reply_text, edit_message_text;
  unfold bind, ret, raise, send, users_find_one, users_insert_one,
    users_update_one, user_data_get, user_data_set, try_except_ValueError;
  simpl.

Section Invariant.
Implicit Types (w : world) (uid : Z).

Lemma session_insert uid uid' ud m u o :
  session uid' (World u (<[uid := ud]> m) o)
  = if decide (uid = uid') then ud else session uid' (World u m o).
Proof. unfold session; simpl. rewrite lookup_insert. by case_decide. Qed.

Lemma sessions_insert uid ud (m : gmap Z dict) u o :
  session_ok ud ->
  (forall uid', session_ok (default ∅ (m !! uid'))) ->
  forall uid', session_ok (session uid' (World u (<[uid := ud]> m) o)).
Proof.
  intros Hud Hm uid'. rewrite session_insert. case_decide; [done|]. apply Hm.
Qed.

Lemma session_ok_empty : session_ok ∅.
Proof. split; [by left|]. unfold confirming. by rewrite lookup_empty. Qed.

Lemma Inv_initial : Inv initial.
Proof.
  split; [constructor|]. intros uid. unfold session; simpl.
  rewrite lookup_empty; simpl. apply session_ok_empty.
Qed.

(** Choosing an action keeps a session well formed. *)
Lemma session_ok_choose ud (a : string) :
  a = "deposit" \/ a = "withdraw" ->
  session_ok ud -> session_ok (<["action" := Py.Str a]> ud).
Proof.
  intros Ha [_ Hc].
  assert (Hact : (<["action" := Py.Str a]> ud : dict) !! "action" = Some (Py.Str "deposit")
                 \/ (<["action" := Py.Str a]> ud : dict) !! "action" = Some (Py.Str "withdraw")).
  { rewrite lookup_insert_eq. destruct Ha as [-> | ->]; auto. }
  split; [unfold action_ok; tauto|].
  unfold confirming. rewrite !lookup_insert_ne by done.
  intros H. destruct (Hc H) as [Ham _]. auto.
Qed.

Lemma doc_ok_new_user uid : doc_ok (new_user uid).
Proof.
  split; [exists 0; split; [reflexivity|lia]|left; reflexivity].
Qed.

Lemma Inv_start uid w : Inv w -> Inv (snd (start uid w)).
Proof.
  intros [Hu Hs]. unfold start, bind, users_find_one, users_insert_one, send, ret.
  simpl. case_bool_decide; simpl; (split; [|exact Hs]); simpl; [exact Hu|].
  apply Forall_app; split; [exact Hu|]. repeat constructor; apply doc_ok_new_user.
Qed.
End Invariant.

Ltac lookup_fields :=
  repeat (rewrite lookup_insert; case_decide; [try discriminate|try congruence]).

Section Preservation.
Implicit Types (w : world) (uid : Z).

Lemma Inv_button uid data w : Inv w -> Inv (snd (button uid data w)).
Proof.
  intros [Hu Hs]. unfold button. run_handler.
  repeat (case_match; simpl in *; simplify_eq); try (split; [exact Hu|exact Hs]).
  all: split; [exact Hu|]; simpl.
  all: apply sessions_insert; [|exact Hs].
  all: apply session_ok_choose; [tauto|apply Hs].
Qed.

Lemma Inv_handle_invalid_response uid w :
  Inv w -> Inv (snd (handle_invalid_response uid w)).
Proof.
  intros [Hu Hs]. unfold handle_invalid_response. run_handler.
  case_match; simpl; (split; [exact Hu|exact Hs]).
Qed.

(** A validated amount puts the session in the confirmation state. *)
Lemma session_ok_amount ud z :
  session_ok ud -> default Py.None_ (ud !! "action") <> Py.None_ -> 0 < z ->
  session_ok (<["confirming" := Py.Bool true]> (<["amount" := Py.Int z]> ud)).
Proof.
  intros [Hact _] Hset Hz.
  assert (Hact' : ud !! "action" = Some (Py.Str "deposit")
                  \/ ud !! "action" = Some (Py.Str "withdraw")).
  { destruct Hact as [H|[H|[H|H]]]; rewrite H in Hset; simpl in Hset; tauto. }
  split.
  - unfold action_ok. lookup_fields. tauto.
  - intros _. lookup_fields. split; [|exact Hact']. by exists z.
Qed.

(** Outside the confirmation state only the action matters. *)
Lemma session_ok_idle ud : action_ok ud -> confirming ud = false -> session_ok ud.
Proof. intros Ha Hc. split; [exact Ha|]. rewrite Hc. discriminate. Qed.

Lemma Inv_handle_amount uid text w : Inv w -> Inv (snd (handle_amount uid text w)).
Proof.
  intros [Hu Hs]. unfold handle_amount, handle_invalid_response. run_handler.
  repeat (case_match; simpl in *; simplify_eq); try (split; [exact Hu|exact Hs]).
  split; [exact Hu|]; simpl.
  rewrite session_insert, decide_True by done. rewrite insert_insert_eq.
  apply sessions_insert; [|exact Hs].
  apply session_ok_amount; [apply Hs| |lia].
  by apply bool_decide_eq_false in H0.
Qed.

Lemma doc_ok_ledger n s d :
  0 <= n -> s <> no_transactions -> doc_ok (ledger_write (Py.Int n) s ∪ d).
Proof.
  intros Hn Hs. split.
  - exists n. split; [|exact Hn]. apply lookup_union_Some_l. reflexivity.
  - right. exists s. split; [|exact Hs]. apply lookup_union_Some_l. reflexivity.
Qed.

Lemma session_ok_reset ud :
  session_ok ud -> session_ok (<["confirming" := Py.Bool false]> ud).
Proof.
  intros [Hact _]. apply session_ok_idle.
  - unfold action_ok. lookup_fields. exact Hact.
  - unfold confirming. by lookup_fields.
Qed.

Lemma session_ok_cancel ud :
  session_ok (<["amount" := Py.None_]> (<["action" := Py.None_]>
               (<["confirming" := Py.Bool false]> ud))).
Proof.
  apply session_ok_idle.
  - unfold action_ok. lookup_fields. tauto.
  - unfold confirming. by lookup_fields.
Qed.

(** The balance read from a record of a well-formed collection. *)
Lemma subscript_balance uid c v :
  Forall doc_ok c -> subscript (find_one uid c) "balance" = inr v ->
  exists b, v = Py.Int b /\ 0 <= b.
Proof.
  intros Hc. unfold subscript. destruct (find_one uid c) as [d|] eqn:Hd; [|done].
  apply find_one_elem in Hd. rewrite Forall_forall in Hc.
  destruct (Hc d Hd) as [(b & Hb & Hpos) _]. rewrite Hb. intros [= <-]. eauto.
Qed.

Lemma Inv_handle_confirmation now uid text w :
  Inv w -> Inv (snd (handle_confirmation now uid text w)).
Proof.
  intros [Hu Hs]. destruct (Hs uid) as [Hact Hconf].
  unfold handle_confirmation. run_handler.
  fold (confirming (session uid w)).
  destruct (confirming (session uid w)) eqn:Hc; simpl; [|split; [exact Hu|exact Hs]].
  destruct (Hconf eq_refl) as [(a & Ha & Hpos) Hact'].
  rewrite Ha; simpl.
  repeat (case_match; simpl in *; simplify_eq); try (split; [exact Hu|exact Hs]).
  all: split; simpl; try exact Hu.
  all: try lazymatch goal with
       | |- forall _, session_ok (session _ (World _ (<[_ := <["confirming" := _]> _]> _) _)) =>
           apply sessions_insert; [apply session_ok_reset; exact (Hs _)|exact Hs]
       | |- forall _, session_ok (session _ (World _ (<[_ := <["amount" := _]> _]> _) _)) =>
           let u := fresh "u" in
           intros u; unfold session; simpl;
           destruct (decide (uid = u)) as [<-|?];
           [ rewrite !lookup_insert_eq; simpl; apply session_ok_cancel
           | rewrite !lookup_insert_ne by done; apply Hs ]
       end.
  all: match goal with
       | H : subscript _ _ = inr _ |- _ =>
           destruct (subscript_balance _ _ _ Hu H) as (b & -> & Hb)
       end.
  all: repeat match goal with
       | H : Py.add _ _ = inr _ |- _ => injection H as <-
       | H : Py.sub _ _ = inr _ |- _ => injection H as <-
       | H : Py.gt _ _ = inr _ |- _ => injection H as H
       | H : Py.le _ _ = inr _ |- _ => injection H as H
       end.
  all: apply Forall_update_one; [|exact Hu].
  all: intros d _; apply doc_ok_ledger; [lia|discriminate].
Qed.

Lemma Inv_step w e : Inv w -> Inv (step w e).
Proof.
  intros HI. destruct e as [now [uid|uid data|uid text c]]; unfold step; simpl.
  - by apply Inv_start.
  - by apply Inv_button.
  - repeat case_match; auto using Inv_handle_amount, Inv_handle_confirmation,
      Inv_handle_invalid_response.
Qed.

Lemma Inv_run es : forall w, Inv w -> Inv (run w es).
Proof.
  induction es as [|e es IH]; intros w HI; simpl; [exact HI|].
  apply IH, Inv_step, HI.
Qed.

Lemma Inv_reachable w : reachable w -> Inv w.
Proof. intros [es ->]. apply Inv_run, Inv_initial. Qed.
End Preservation.

(** ** The ledger operations *)

#[local] Arguments Py.str : simpl never.
#[local] Arguments DateTime.str : simpl never.
#[local] Arguments String.append : simpl never.

Section Ledger.
Implicit Types (w : world) (uid : Z) (d : dict).

Lemma persisted_update_one uid sets key v u d m o :
  sets !! "user_id" = None ->
  find_one uid u = Some d ->
  sets !! key = Some v ->
  persisted uid key (World (update_one uid sets u) m o) = Some v.
Proof.
  intros Hid Hd Hk. unfold persisted; simpl.
  rewrite (find_one_update_one _ _ _ _ Hid Hd); simpl.
  by apply lookup_union_Some_l.
Qed.

(** What a confirmation does in a session that waits for it. *)
Lemma handle_confirmation_confirm now uid text w d b a (verb : string) :
  Py.lower (Py.strip text) = "confirm" ->
  confirming (session uid w) = true ->
  session uid w !! "amount" = Some (Py.Int a) ->
  find_one uid (users w) = Some d ->
  d !! "balance" = Some (Py.Int b) ->
  session uid w !! "action" = Some (Py.Str verb) ->
  (verb = "deposit" ->
   handle_confirmation now uid text w
   = (inr tt,
      World (update_one uid
               (ledger_write (Py.Int (b + a))
                  ("Deposited " +:+ pretty a +:+ " on " +:+ DateTime.str now))
               (users w))
            (<[uid := <["confirming" := Py.Bool false]> (session uid w)]> (user_data w))
            (outbox w ++ [ReplyText ("Deposited " +:+ pretty a +:+ ". New balance: "
                                     +:+ pretty (b + a)) []])))
  /\ (verb = "withdraw" -> b < a ->
      handle_confirmation now uid text w
      = (inr tt,
         World (users w)
            (<[uid := <["confirming" := Py.Bool false]> (session uid w)]> (user_data w))
            (outbox w ++ [ReplyText "Insufficient balance." []])))
  /\ (verb = "withdraw" -> 0 < a <= b ->
      handle_confirmation now uid text w
      = (inr tt,
         World (update_one uid
               (ledger_write (Py.Int (b - a))
                  ("Withdrew " +:+ pretty a +:+ " on " +:+ DateTime.str now))
               (users w))
            (<[uid := <["confirming" := Py.Bool false]> (session uid w)]> (user_data w))
            (outbox w ++ [ReplyText ("Withdrew " +:+ pretty a +:+ ". New balance: "
                                     +:+ pretty (b - a)) []]))).
Proof.
  intros Ht Hc Ha Hd Hb Hv.
  unfold handle_confirmation. run_handler.
  fold (confirming (session uid w)). rewrite Hc, Ht, Ha, Hd, Hv; simpl.
  rewrite Hb; simpl.
  repeat split.
  - intros ->. simpl. reflexivity.
  - intros -> Hlt. simpl. replace (b <? a) with true by lia. reflexivity.
  - intros -> Hle. simpl. replace (b <? a) with false by lia. simpl.
    replace (a <=? 0) with false by lia. reflexivity.
Qed.
End Ledger.

(** ** The claims on the ledger and on the dialogue *)

(** C1: in every world the bot can reach from the empty collection, every
    persisted record has an integer balance that is not negative: [start]
    creates it with balance 0, a deposit adds a positive amount, and a
    withdrawal larger than the balance writes nothing. *)
Theorem balance_never_negative w d :
  reachable w -> d ∈ users w ->
  exists b, d !! "balance" = Some (Py.Int b) /\ 0 <= b.
Proof.
  intros Hr Hd. destruct (Inv_reachable w Hr) as [Hu _].
  rewrite Forall_forall in Hu. exact (proj1 (Hu d Hd)).
Qed.

Lemma balance_never_negative_witness :
  exists b,
    (ledger_write (Py.Int 50) ("Deposited 50 on " +:+ DateTime.str t1) ∪ new_user 7)
      !! "balance" = Some (Py.Int b) /\ 0 <= b.
Proof.
  apply (balance_never_negative
           (run initial [(t1, StartCommand 7); (t1, CallbackQuery 7 "deposit");
                         (t1, Message 7 "50" false); (t1, Message 7 "confirm" false);
                         (t1, CallbackQuery 7 "withdraw");
                         (t1, Message 7 "80" false); (t1, Message 7 "confirm" false)])).
  - eexists. reflexivity.
  - vm_compute. left.
Defined.

(** C2: a confirmed withdrawal of a positive amount [a] from a record with
    balance [b]. When [a <= b] the persisted balance becomes [b - a] and the
    last transaction "Withdrew a on <now>"; when [a > b] the answer is
    "Insufficient balance." and the collection is left as it was. *)
Theorem withdraw_confirmed now uid text w d b a :
  Py.lower (Py.strip text) = "confirm" ->
  confirming (session uid w) = true ->
  session uid w !! "action" = Some (Py.Str "withdraw") ->
  session uid w !! "amount" = Some (Py.Int a) -> 0 < a ->
  find_one uid (users w) = Some d -> d !! "balance" = Some (Py.Int b) ->
  let r := handle_confirmation now uid text w in
  fst r = inr tt
  /\ (a <= b ->
      persisted uid "balance" (snd r) = Some (Py.Int (b - a))
      /\ persisted uid "last_transaction" (snd r)
         = Some (Py.Str ("Withdrew " +:+ pretty a +:+ " on " +:+ DateTime.str now)))
  /\ (b < a ->
      users (snd r) = users w
      /\ outbox (snd r) = (outbox w ++ [ReplyText "Insufficient balance." []])%list).
Proof.
  intros Ht Hc Hv Ha Hpos Hd Hb.
  destruct (handle_confirmation_confirm now uid text w d b a "withdraw"
              Ht Hc Ha Hd Hb Hv) as (_ & Hno & Hyes).
  destruct (Z_lt_le_dec b a) as [Hlt|Hle].
  - cbv zeta. rewrite (Hno eq_refl Hlt); simpl. repeat split; try lia; reflexivity.
  - cbv zeta. rewrite (Hyes eq_refl (conj Hpos Hle)); simpl.
    split; [reflexivity|]. split; [|lia]. intros _.
    split; eapply persisted_update_one; try exact Hd; reflexivity.
Qed.

Lemma withdraw_confirmed_witness :
  let r := handle_confirmation t1 7 " Confirm " (awaiting 50 "withdraw" 20) in
  fst r = inr tt
  /\ (20 <= 50 ->
      persisted 7 "balance" (snd r) = Some (Py.Int (50 - 20))
      /\ persisted 7 "last_transaction" (snd r)
         = Some (Py.Str ("Withdrew " +:+ pretty 20 +:+ " on " +:+ DateTime.str t1)))
  /\ (50 < 20 ->
      users (snd r) = users (awaiting 50 "withdraw" 20)
      /\ outbox (snd r)
         = (outbox (awaiting 50 "withdraw" 20)
            ++ [ReplyText "Insufficient balance." []])%list).
Proof.
  apply (withdraw_confirmed t1 7 " Confirm " (awaiting 50 "withdraw" 20)
           (registered 50) 50 20); try reflexivity; lia.
Defined.



(** C8: in a session that waits for the confirmation, the message "cancel"
    writes nothing to the collection, answers "Transaction cancelled." and
    nothing else, and clears the flag, the action and the amount, whatever
    the amount was. *)
Theorem cancel_discards now uid w :
  confirming (session uid w) = true ->
  let r := dispatch now (Message uid "cancel" false) w in
  fst r = inr tt
  /\ users (snd r) = users w
  /\ outbox (snd r) = (outbox w ++ [ReplyText "Transaction cancelled." []])%list
  /\ confirming (session uid (snd r)) = false
  /\ session uid (snd r) !! "action" = Some Py.None_
  /\ session uid (snd r) !! "amount" = Some Py.None_.
Proof.
  intros Hc. cbv zeta. simpl. unfold handle_confirmation. run_handler.
  fold (confirming (session uid w)). rewrite Hc; simpl.
  repeat split; unfold confirming, session; simpl;
    repeat (first [rewrite lookup_insert_eq|rewrite lookup_insert_ne by done]; simpl);
    reflexivity.
Qed.

Lemma cancel_discards_witness :
  let r := dispatch t1 (Message 7 "cancel" false) (awaiting 50 "withdraw" 20) in
  fst r = inr tt
  /\ users (snd r) = users (awaiting 50 "withdraw" 20)
  /\ outbox (snd r)
     = (outbox (awaiting 50 "withdraw" 20)
        ++ [ReplyText "Transaction cancelled." []])%list
  /\ confirming (session 7 (snd r)) = false
  /\ session 7 (snd r) !! "action" = Some Py.None_
  /\ session 7 (snd r) !! "amount" = Some Py.None_.
Proof. apply (cancel_discards t1 7 (awaiting 50 "withdraw" 20)). reflexivity. Defined.

(** C9: in every reachable world, a session whose confirmation flag is set
    has one of the two actions chosen and a positive integer as amount. *)
Theorem confirmation_has_positive_amount w uid :
  reachable w -> confirming (session uid w) = true ->
  (exists a, session uid w !! "amount" = Some (Py.Int a) /\ 0 < a)
  /\ (session uid w !! "action" = Some (Py.Str "deposit")
      \/ session uid w !! "action" = Some (Py.Str "withdraw")).
Proof.
  intros Hr Hc. destruct (Inv_reachable w Hr) as [_ Hs].
  exact (proj2 (Hs uid) Hc).
Qed.

Lemma confirmation_has_positive_amount_witness :
  let w := run initial [(t1, StartCommand 7); (t1, CallbackQuery 7 "withdraw");
                        (t1, Message 7 "-3" false); (t1, Message 7 "abc" false);
                        (t1, Message 7 " 20 " false)] in
  (exists a, session 7 w !! "amount" = Some (Py.Int a) /\ 0 < a)
  /\ (session 7 w !! "action" = Some (Py.Str "deposit")
      \/ session 7 w !! "action" = Some (Py.Str "withdraw")).
Proof.
  apply (confirmation_has_positive_amount
           (run initial [(t1, StartCommand 7); (t1, CallbackQuery 7 "withdraw");
                         (t1, Message 7 "-3" false); (t1, Message 7 "abc" false);
                         (t1, Message 7 " 20 " false)]) 7).
  - eexists. reflexivity.
  - vm_compute. reflexivity.
Defined.

(** ** Where the code departs from the documented behaviour *)

(** C4: the record [start] creates has the field [last_transaction] set to
    [None], so [user.get('last_transaction', 'No transactions yet')] returns
    [None], not the default; the comparison with the default text then
    succeeds and [None.split] raises AttributeError. The inquiry of a new
    user sends no balance at all. *)
Theorem new_user_inquiry_raises :
  let w := run initial [(t1, StartCommand 7)] in
  let r := dispatch t1 (CallbackQuery 7 "check_balance") w in
  persisted 7 "balance" w = Some (Py.Int 0)
  /\ persisted 7 "last_transaction" w = Some Py.None_
  /\ fst r = inl Py.AttributeError
  /\ outbox (snd r) = (outbox w ++ [Answer])%list.
Proof. vm_compute. repeat split; reflexivity. Qed.

(** C5: after a confirmed operation only the flag is reset: the action and
    the amount stay in the session, so that the next number typed is taken
    as the amount of the same action without a new choice. *)
Theorem confirm_keeps_action_and_amount :
  let w := run initial [(t1, StartCommand 7); (t1, CallbackQuery 7 "deposit");
                        (t1, Message 7 "50" false); (t1, Message 7 "confirm" false)] in
  confirming (session 7 w) = false
  /\ session 7 w !! "action" = Some (Py.Str "deposit")
  /\ session 7 w !! "amount" = Some (Py.Int 50)
  /\ confirming (session 7 (step w (t1, Message 7 "20" false))) = true.
Proof. vm_compute. repeat split; reflexivity. Qed.

(** C6: the handler table gives [handle_confirmation] only the texts that
    the pattern [^(confirm|cancel)$] matches. "Confirm" goes to
    [handle_amount], which asks again and leaves the collection and the
    session as they were, although [handle_confirmation] itself would have
    accepted it. *)
Theorem capitalised_confirm_not_routed :
  let w := awaiting 50 "deposit" 20 in
  Forall (fun text =>
            dispatch t1 (Message 7 text false) w
            = (inr tt, World (users w) (user_data w) [ReplyText reprompt []]))
         ["Confirm"; "CONFIRM"; " confirm "; "Cancel"; "CANCEL"; "confirm "]
  /\ persisted 7 "balance" (snd (handle_confirmation t1 7 "Confirm" w))
     = Some (Py.Int 70)
  /\ persisted 7 "balance" (snd (dispatch t1 (Message 7 "confirm" false) w))
     = Some (Py.Int 70).
Proof. split; [repeat constructor|split; vm_compute; reflexivity]. Qed.

(** ** Records of users the bot has not greeted *)

(** C7, as stated, fails: a lookup does not create the record. The balance
    inquiry of a user without a record raises AttributeError, a confirmed
    deposit raises TypeError, and in both cases the collection still has no
    record of the user afterwards. *)
Lemma lookup_does_not_create :
  (let r := dispatch t1 (CallbackQuery 7 "check_balance") initial in
   fst r = inl Py.AttributeError /\ find_one 7 (users (snd r)) = None)
  /\ (let w := run initial [(t1, CallbackQuery 7 "deposit"); (t1, Message 7 "50" false)] in
      let r := dispatch t1 (Message 7 "confirm" false) w in
      confirming (session 7 w) = true
      /\ fst r = inl Py.TypeError /\ find_one 7 (users (snd r)) = None).
Proof. vm_compute. repeat split; reflexivity. Qed.

(** C7, amended: only [start] creates a missing record. For a user without
    a record, [start] inserts one with balance 0 and no last transaction
    and goes on to send the menu; every other update of that user leaves
    the collection as it is. *)
Theorem only_start_creates_record uid w :
  find_one uid (users w) = None ->
  (let r := dispatch t1 (StartCommand uid) w in
   fst r = inr tt
   /\ find_one uid (users (snd r)) = Some (new_user uid)
   /\ persisted uid "balance" (snd r) = Some (Py.Int 0)
   /\ persisted uid "last_transaction" (snd r) = Some Py.None_
   /\ last (outbox (snd r))
      = Some (ReplyText "Welcome to the Mock Bank Bot! Choose an option:" keyboard))
  /\ (forall now u, sender u = uid -> is_start u = false ->
      users (step w (now, u)) = users w).
Proof.
  intros Hnone. split.
  - assert (Hf : find_one uid (insert_one (new_user uid) (users w)) = Some (new_user uid)).
    { apply find_one_insert_one; [exact Hnone|].
      unfold matches, new_user. rewrite lookup_insert_eq. simpl. apply Z.eqb_refl. }
    cbv zeta. simpl. unfold start. run_handler. rewrite Hnone. simpl.
    unfold persisted; simpl. rewrite Hf. simpl.
    repeat split; try reflexivity. apply last_snoc.
  - intros now [x|x data|x text c] Hx Hs; simpl in Hx; subst x;
      [discriminate| |]; unfold step; simpl.
    + unfold button. run_handler. rewrite Hnone; simpl.
      repeat (case_match; simpl in *; simplify_eq); reflexivity.
    + unfold handle_amount, handle_confirmation, handle_invalid_response.
      run_handler.
      repeat (case_match; simpl in *; simplify_eq);
        first [reflexivity | by apply update_one_absent].
Qed.

Lemma only_start_creates_record_witness :
  (let r := dispatch t1 (StartCommand 7) initial in
   fst r = inr tt
   /\ find_one 7 (users (snd r)) = Some (new_user 7)
   /\ persisted 7 "balance" (snd r) = Some (Py.Int 0)
   /\ persisted 7 "last_transaction" (snd r) = Some Py.None_
   /\ last (outbox (snd r))
      = Some (ReplyText "Welcome to the Mock Bank Bot! Choose an option:" keyboard))
  /\ (forall now u, sender u = 7 -> is_start u = false ->
      users (step initial (now, u)) = users initial).
Proof. apply (only_start_creates_record 7 initial). reflexivity. Defined.

(** ** Parsing the time stamp of the last transaction *)

Section Strptime.
Import DateTime.
Context {R : Type} (r : R).

(** A continuation that is reached only on texts that still hold a
    fraction. *)
Local Abbreviation wants_fraction k :=
  (forall v rest, k v rest = Some r -> has_fraction rest = true).

Lemma has_fraction_cons c s : has_fraction s = true -> has_fraction (String c s) = true.
Proof. intros H; simpl. rewrite H. apply orb_true_r. Qed.

Lemma orelse_Some (a b : option R) :
  orelse a b = Some r -> a = Some r \/ b = Some r.
Proof. destruct a; simpl; auto. Qed.

Lemma one_fraction lo hi k s :
  wants_fraction k -> one lo hi k s = Some r -> has_fraction s = true.
Proof.
  intros Hk. destruct s as [|c s]; simpl; [done|].
  destruct (in_range lo hi c); [|done]. intros H. eauto using has_fraction_cons.
Qed.

Lemma two_fraction lo1 hi1 lo2 hi2 k s :
  wants_fraction k -> two lo1 hi1 lo2 hi2 k s = Some r -> has_fraction s = true.
Proof.
  intros Hk. destruct s as [|c [|c' s]]; simpl; [done..|].
  destruct (in_range lo1 hi1 c && in_range lo2 hi2 c'); [|done].
  intros H. eauto using has_fraction_cons.
Qed.

Lemma lit_fraction a (k : string -> option R) s :
  (forall rest, k rest = Some r -> has_fraction rest = true) ->
  lit a k s = Some r -> has_fraction s = true.
Proof.
  intros Hk. destruct s as [|c s]; simpl; [done|].
  destruct (Ascii.eqb c a); [|done]. intros H. eauto using has_fraction_cons.
Qed.

(** The dot of the format is where the fraction starts. *)
Lemma dot_fraction (k : string -> option R) s :
  (forall rest, k rest = Some r -> is_fraction rest = true) ->
  lit "." k s = Some r -> has_fraction s = true.
Proof.
  intros Hk. destruct s as [|c s]; simpl; [done|].
  destruct (Ascii.eqb c ".") eqn:Hc; [|done]. intros H.
  by rewrite (Hk _ H).
Qed.

Lemma spaces_fraction (k : string -> option R) s :
  (forall rest, k rest = Some r -> has_fraction rest = true) ->
  spaces k s = Some r -> has_fraction s = true.
Proof.
  intros Hk. induction s as [|c s IH]; intros H; simpl in H; [by apply Hk|].
  destruct (Py.isspace c); [|by apply Hk].
  apply orelse_Some in H as [H|H]; [|by apply Hk]. auto using has_fraction_cons.
Qed.

Lemma spaces1_fraction (k : string -> option R) s :
  (forall rest, k rest = Some r -> has_fraction rest = true) ->
  spaces1 k s = Some r -> has_fraction s = true.
Proof.
  intros Hk. destruct s as [|c s]; simpl; [done|].
  destruct (Py.isspace c); [|done].
  intros H. eauto using has_fraction_cons, spaces_fraction.
Qed.

Ltac alternatives :=
  repeat match goal with
         | H : orelse _ _ = Some _ |- _ => apply orelse_Some in H; destruct H as [H|H]
         end;
  eauto using one_fraction, two_fraction, lit_fraction.

Lemma pm_fraction k s : wants_fraction k -> pm k s = Some r -> has_fraction s = true.
Proof. unfold pm. intros Hk H. alternatives. Qed.

Lemma pd_fraction k s : wants_fraction k -> pd k s = Some r -> has_fraction s = true.
Proof.
  unfold pd. intros Hk H. alternatives.
Qed.

Lemma pH_fraction k s : wants_fraction k -> pH k s = Some r -> has_fraction s = true.
Proof. unfold pH. intros Hk H. alternatives. Qed.

Lemma pM_fraction k s : wants_fraction k -> pM k s = Some r -> has_fraction s = true.
Proof. unfold pM. intros Hk H. alternatives. Qed.

Lemma pS_fraction k s : wants_fraction k -> pS k s = Some r -> has_fraction s = true.
Proof. unfold pS. intros Hk H. alternatives. Qed.

Lemma pY_fraction k s : wants_fraction k -> pY k s = Some r -> has_fraction s = true.
Proof.
  unfold pY. intros Hk.
  apply one_fraction; intros a ?. apply one_fraction; intros b ?.
  apply one_fraction; intros c ?. apply one_fraction; intros d ?. apply Hk.
Qed.
End Strptime.

Section StrptimeFraction.
Import DateTime.

(** When the whole text is matched, what follows the dot is the fraction. *)
Lemma pf_end (mk : Z -> t) dt s :
  pf (fun f rest => Some (mk f, rest)) s = Some (dt, EmptyString) ->
  is_fraction s = true.
Proof.
  unfold pf, is_fraction. destruct (digits_upto 6 s) as [[|c ds] rest]; [done|].
  by intros [= _ ->].
Qed.

Lemma match_format_fraction s dt :
  match_format s = Some (dt, EmptyString) -> has_fraction s = true.
Proof.
  unfold match_format.
  apply pY_fraction; intros Y ?. apply lit_fraction; intros ?.
  apply pm_fraction; intros m ?. apply lit_fraction; intros ?.
  apply pd_fraction; intros d ?. apply spaces1_fraction; intros ?.
  apply pH_fraction; intros H ?. apply lit_fraction; intros ?.
  apply pM_fraction; intros M ?. apply lit_fraction; intros ?.
  apply pS_fraction; intros S ?. apply dot_fraction; intros ?.
  apply pf_end.
Qed.

(** A text without a fraction of a second is rejected. *)
Lemma strptime_without_fraction s :
  has_fraction s = false -> strptime s = inl Py.ValueError.
Proof.
  intros Hs. unfold strptime.
  destruct (match_format s) as [[dt [|c rest]]|] eqn:Hm; try reflexivity.
  apply match_format_fraction in Hm. congruence.
Qed.
End StrptimeFraction.

(** C10: the inquiry splits the stored last transaction on " on " and parses
    the last piece with a format that requires a fraction of a second. For
    every record of a reachable world whose last transaction is a text with
    a last piece without such a fraction, the inquiry raises ValueError
    instead of sending the balance. *)
Theorem inquiry_raises_without_fraction now w uid d s seg :
  reachable w ->
  find_one uid (users w) = Some d ->
  d !! "last_transaction" = Some (Py.Str s) ->
  last (Py.split " on " s) = Some seg ->
  DateTime.has_fraction seg = false ->
  let r := dispatch now (CallbackQuery uid "check_balance") w in
  fst r = inl Py.ValueError
  /\ outbox (snd r) = (outbox w ++ [Answer])%list.
Proof.
  intros Hr Hd Hs Hseg Hfr.
  destruct (Inv_reachable w Hr) as [Hu _]. rewrite Forall_forall in Hu.
  destruct (Hu d (find_one_elem _ _ _ Hd)) as [_ [Hn|(s' & Hs' & Hne)]];
    [congruence|]. assert (s' = s) as -> by congruence.
  cbv zeta. simpl. unfold button. run_handler. rewrite Hd; simpl. rewrite Hs; simpl.
  unfold Py.eqb; simpl. rewrite bool_decide_eq_false_2 by congruence. simpl.
  unfold index_last. rewrite Hseg; simpl.
  rewrite (strptime_without_fraction seg Hfr). split; reflexivity.
Qed.

Lemma inquiry_raises_without_fraction_witness :
  let w := run initial [(t0, StartCommand 7); (t0, CallbackQuery 7 "deposit");
                        (t0, Message 7 "50" false); (t0, Message 7 "confirm" false)] in
  let r := dispatch t1 (CallbackQuery 7 "check_balance") w in
  fst r = inl Py.ValueError
  /\ outbox (snd r) = (outbox w ++ [Answer])%list.
Proof.
  apply (inquiry_raises_without_fraction t1
           (run initial [(t0, StartCommand 7); (t0, CallbackQuery 7 "deposit");
                         (t0, Message 7 "50" false); (t0, Message 7 "confirm" false)])
           7 (ledger_write (Py.Int 50) "Deposited 50 on 2024-01-02 03:04:05" ∪ new_user 7)
           "Deposited 50 on 2024-01-02 03:04:05" "2024-01-02 03:04:05").
  - eexists. reflexivity.
  - vm_compute. reflexivity.
  - reflexivity.
  - reflexivity.
  - reflexivity.
Defined.

(** ** Further properties of the handlers *)

(** [start] on a user who already has a record writes nothing: the record,
    with its balance and last transaction, stays, and only the menu with
    the three buttons is sent. *)
Theorem start_keeps_existing_record now uid w d :
  find_one uid (users w) = Some d ->
  dispatch now (StartCommand uid) w
  = (inr tt,
     World (users w) (user_data w)
           (outbox w ++ [ReplyText "Welcome to the Mock Bank Bot! Choose an option:"
                           [ [("Check Balance", "check_balance")];
                             [("Deposit", "deposit")];
                             [("Withdraw", "withdraw")] ]])).
Proof.
  intros Hd. simpl. unfold start. run_handler. rewrite Hd. simpl. reflexivity.
Qed.

Lemma start_keeps_existing_record_witness :
  dispatch t1 (StartCommand 7) (awaiting 50 "deposit" 20)
  = (inr tt,
     World (users (awaiting 50 "deposit" 20)) (user_data (awaiting 50 "deposit" 20))
           (outbox (awaiting 50 "deposit" 20)
            ++ [ReplyText "Welcome to the Mock Bank Bot! Choose an option:"
                  [ [("Check Balance", "check_balance")];
                    [("Deposit", "deposit")];
                    [("Withdraw", "withdraw")] ]])).
Proof.
  apply (start_keeps_existing_record t1 7 (awaiting 50 "deposit" 20) (registered 50)).
  reflexivity.
Defined.

(** A button press and a text that is not exactly "confirm" or "cancel"
    never write to the collection: only [start] and a confirmation do. *)
Theorem only_start_and_confirmation_write now u w :
  match u with
  | StartCommand _ => False
  | CallbackQuery _ _ => True
  | Message _ text _ => filter_Regex text = false
  end ->
  users (step w (now, u)) = users w.
Proof.
  destruct u as [uid|uid data|uid text c]; [done| |]; intros Hu; unfold step; simpl.
  - unfold button. run_handler.
    repeat (case_match; simpl in *; simplify_eq); reflexivity.
  - rewrite Hu, andb_false_r; simpl.
    unfold handle_amount, handle_invalid_response. run_handler.
    repeat (case_match; simpl in *; simplify_eq); reflexivity.
Qed.

Lemma only_start_and_confirmation_write_witness :
  users (step (awaiting 50 "deposit" 20) (t1, Message 7 "Confirm" false))
  = users (awaiting 50 "deposit" 20).
Proof.
  apply (only_start_and_confirmation_write t1 (Message 7 "Confirm" false)
           (awaiting 50 "deposit" 20)).
  reflexivity.
Defined.

(** The balance inquiry reads only: whether it answers or raises, the
    collection and every session are as before. *)
Theorem inquiry_reads_only now uid w :
  let w' := step w (now, CallbackQuery uid "check_balance") in
  users w' = users w /\ user_data w' = user_data w.
Proof.
  unfold step; simpl. unfold button. run_handler.
  repeat (case_match; simpl in *; simplify_eq); split; reflexivity.
Qed.

(** While the confirmation is awaited, a text that the table does not route
    to [handle_confirmation] (anything but "confirm" and "cancel" as they
    are) is answered with the prompt and changes nothing: the pending
    amount cannot be replaced. *)
Theorem other_text_while_confirming now uid text c w :
  confirming (session uid w) = true ->
  filter_TEXT text = true -> filter_Regex text = false ->
  dispatch now (Message uid text c) w
  = (inr tt, World (users w) (user_data w) (outbox w ++ [ReplyText reprompt []])).
Proof.
  intros Hc Ht Hr. simpl. rewrite Ht, Hr; simpl.
  unfold handle_amount, handle_invalid_response.
  destruct c; simpl; run_handler;
    fold (confirming (session uid w)); rewrite Hc; simpl;
    fold (confirming (session uid w)); rewrite ?Hc; reflexivity.
Qed.

Lemma other_text_while_confirming_witness :
  dispatch t1 (Message 7 "75" false) (awaiting 50 "deposit" 20)
  = (inr tt, World (users (awaiting 50 "deposit" 20))
               (user_data (awaiting 50 "deposit" 20))
               (outbox (awaiting 50 "deposit" 20) ++ [ReplyText reprompt []])).
Proof.
  apply (other_text_while_confirming t1 7 "75" false (awaiting 50 "deposit" 20));
    reflexivity.
Defined.

(** Outside the confirmation state "confirm" and "cancel" are answered with
    "Please start a transaction first." and change nothing; no ledger
    operation runs, whatever action and amount the session still holds. *)
Theorem confirmation_without_prompt now uid text c w :
  confirming (session uid w) = false ->
  filter_Regex text = true ->
  dispatch now (Message uid text c) w
  = (inr tt, World (users w) (user_data w)
               (outbox w ++ [ReplyText "Please start a transaction first." []])).
Proof.
  intros Hc Hr. simpl. rewrite Hr, andb_false_r; simpl.
  assert (Ht : filter_TEXT text = true).
  { unfold filter_Regex in Hr. destruct text; [discriminate|reflexivity]. }
  rewrite Ht; simpl. unfold handle_confirmation. run_handler.
  fold (confirming (session uid w)). rewrite Hc. reflexivity.
Qed.

Lemma confirmation_without_prompt_witness :
  dispatch t1 (Message 7 "confirm" false) initial
  = (inr tt, World (users initial) (user_data initial)
               (outbox initial ++ [ReplyText "Please start a transaction first." []])).
Proof.
  apply (confirmation_without_prompt t1 7 "confirm" false initial); reflexivity.
Defined.



(** A text typed when no action is chosen (none yet, or the last one was
    cancelled) is answered with "Please start the transaction again." and
    changes nothing, whatever the text is. *)
Theorem text_without_action now uid text w :
  confirming (session uid w) = false ->
  default Py.None_ (session uid w !! "action") = Py.None_ ->
  filter_TEXT text = true -> filter_Regex text = false ->
  dispatch now (Message uid text false) w
  = (inr tt, World (users w) (user_data w)
               (outbox w ++ [ReplyText "Please start the transaction again." []])).
Proof.
  intros Hc Ha Ht Hr. simpl. rewrite Ht, Hr; simpl.
  unfold handle_amount. run_handler.
  fold (confirming (session uid w)). rewrite Hc, Ha; simpl. reflexivity.
Qed.

Lemma text_without_action_witness :
  dispatch t1 (Message 7 "50" false) initial
  = (inr tt, World (users initial) (user_data initial)
               (outbox initial ++ [ReplyText "Please start the transaction again." []])).
Proof. apply (text_without_action t1 7 "50" initial); reflexivity. Defined.

(** What "cancel" leaves behind, as a fact to build on. *)
Lemma cancel_discards_frame now uid w :
  confirming (session uid w) = true ->
  let w1 := step w (now, Message uid "cancel" false) in
  users w1 = users w
  /\ outbox w1 = (outbox w ++ [ReplyText "Transaction cancelled." []])%list
  /\ confirming (session uid w1) = false
  /\ session uid w1 !! "action" = Some Py.None_.
Proof.
  intros Hc. cbv zeta. unfold step. simpl. unfold handle_confirmation. run_handler.
  fold (confirming (session uid w)). rewrite Hc; simpl.
  repeat split; unfold confirming, session; simpl;
    repeat (first [rewrite lookup_insert_eq|rewrite lookup_insert_ne by done]; simpl);
    reflexivity.
Qed.

(** After a cancellation the session is back at the start: the next text is
    refused with "Please start the transaction again." until a button is
    pressed, although it may be a valid amount. *)
Theorem cancel_then_text now now' uid text w :
  confirming (session uid w) = true ->
  filter_TEXT text = true -> filter_Regex text = false ->
  let w1 := step w (now, Message uid "cancel" false) in
  let r := dispatch now' (Message uid text false) w1 in
  fst r = inr tt /\ users (snd r) = users w /\ user_data (snd r) = user_data w1
  /\ outbox (snd r)
     = (outbox w ++ [ReplyText "Transaction cancelled." [];
                     ReplyText "Please start the transaction again." []])%list.
Proof.
  intros Hc Ht Hr.
  destruct (cancel_discards_frame now uid w Hc) as (Hu & Ho & Hc' & Ha).
  cbv zeta. simpl dispatch. rewrite Ht, Hr; simpl.
  unfold handle_amount. run_handler.
  fold (confirming (session uid (step w (now, Message uid "cancel" false)))).
  rewrite Hc', Ha; simpl. rewrite Hu, Ho, <- app_assoc. repeat split; reflexivity.
Qed.

Lemma cancel_then_text_witness :
  let w := awaiting 50 "withdraw" 20 in
  let w1 := step w (t1, Message 7 "cancel" false) in
  let r := dispatch t1 (Message 7 "30" false) w1 in
  fst r = inr tt /\ users (snd r) = users w /\ user_data (snd r) = user_data w1
  /\ outbox (snd r)
     = (outbox w ++ [ReplyText "Transaction cancelled." [];
                     ReplyText "Please start the transaction again." []])%list.
Proof. apply (cancel_then_text t1 t1 7 "30" (awaiting 50 "withdraw" 20)); reflexivity. Defined.

(** ** Users do not interfere *)

Lemma matches_functional uid uid' d :
  matches uid d = true -> matches uid' d = true -> uid = uid'.
Proof.
  unfold matches, Py.eqb. destruct (d !! "user_id") as [v|]; [|done].
  destruct v as [|b|z|s]; simpl; try done.
  - intros H1%Z.eqb_eq H2%Z.eqb_eq. congruence.
  - intros H1%Z.eqb_eq H2%Z.eqb_eq. congruence.
Qed.

Lemma matches_new_user uid uid' : matches uid' (new_user uid) = true -> uid = uid'.
Proof.
  unfold matches, new_user. rewrite lookup_insert_eq. simpl.
  intros H%Z.eqb_eq. done.
Qed.

Lemma find_one_update_one_ne uid uid' sets c :
  sets !! "user_id" = None -> uid <> uid' ->
  find_one uid' (update_one uid sets c) = find_one uid' c.
Proof.
  intros Hs Hne. induction c as [|d c IH]; simpl; [done|].
  destruct (matches uid d) eqn:Hm; simpl.
  - rewrite matches_set by exact Hs.
    destruct (matches uid' d) eqn:Hm'; [|done].
    destruct Hne. eauto using matches_functional.
  - by rewrite IH.
Qed.

Lemma find_one_insert_one_ne uid uid' c :
  uid <> uid' -> find_one uid' (insert_one (new_user uid) c) = find_one uid' c.
Proof.
  intros Hne. unfold insert_one. induction c as [|d c IH]; simpl.
  - destruct (matches uid' (new_user uid)) eqn:Hm; [|done].
    destruct Hne. by apply matches_new_user.
  - by rewrite IH.
Qed.

Lemma find_one_insert_one_old uid c d d' :
  find_one uid c = Some d -> find_one uid (insert_one d' c) = Some d.
Proof.
  unfold insert_one. induction c as [|d0 c IH]; simpl; [done|].
  destruct (matches uid d0); auto.
Qed.

Lemma find_one_update_one_is_Some uid uid' sets c d :
  sets !! "user_id" = None ->
  find_one uid c = Some d ->
  exists d', find_one uid (update_one uid' sets c) = Some d'.
Proof.
  intros Hs. induction c as [|d0 c IH]; simpl; [done|].
  destruct (matches uid' d0) eqn:Hm'; simpl.
  - rewrite matches_set by exact Hs. destruct (matches uid d0); eauto.
  - destruct (matches uid d0); eauto.
Qed.

(** An update of one user changes neither the record nor the session of any
    other user. *)
Theorem other_users_untouched w e uid' :
  sender (snd e) <> uid' ->
  find_one uid' (users (step w e)) = find_one uid' (users w)
  /\ session uid' (step w e) = session uid' w.
Proof.
  destruct e as [now [uid|uid data|uid text c]]; simpl; intros Hne; unfold step; simpl.
  - unfold start. run_handler.
    case_bool_decide; simpl; (split; [|reflexivity]); [reflexivity|].
    by apply find_one_insert_one_ne.
  - unfold button. run_handler.
    repeat (case_match; simpl in *; simplify_eq); split; try reflexivity.
    all: unfold session; simpl; by rewrite lookup_insert_ne.
  - unfold handle_amount, handle_confirmation, handle_invalid_response. run_handler.
    repeat (case_match; simpl in *; simplify_eq); split; try reflexivity.
    all: try (by apply find_one_update_one_ne).
    all: unfold session; simpl; by rewrite !lookup_insert_ne.
Qed.

Lemma other_users_untouched_witness :
  find_one 8 (users (step (awaiting 50 "deposit" 20) (t1, Message 7 "confirm" false)))
  = find_one 8 (users (awaiting 50 "deposit" 20))
  /\ session 8 (step (awaiting 50 "deposit" 20) (t1, Message 7 "confirm" false))
     = session 8 (awaiting 50 "deposit" 20).
Proof.
  apply (other_users_untouched (awaiting 50 "deposit" 20)
           (t1, Message 7 "confirm" false) 8).
  discriminate.
Defined.

(** No handler deletes a record: a user who has one keeps one, whatever
    update arrives. *)
Theorem records_are_kept w e uid d :
  find_one uid (users w) = Some d ->
  exists d', find_one uid (users (step w e)) = Some d'.
Proof.
  intros Hd. destruct e as [now [x|x data|x text c]]; unfold step; simpl.
  - unfold start. run_handler. case_bool_decide; simpl; [eauto|].
    eexists. by apply find_one_insert_one_old.
  - unfold button. run_handler.
    repeat (case_match; simpl in *; simplify_eq); eauto.
  - unfold handle_amount, handle_confirmation, handle_invalid_response. run_handler.
    repeat (case_match; simpl in *; simplify_eq); eauto.
    all: by eapply find_one_update_one_is_Some.
Qed.

Lemma records_are_kept_witness :
  exists d', find_one 7 (users (step (awaiting 50 "withdraw" 20)
                                  (t1, Message 7 "confirm" false))) = Some d'.
Proof.
  apply (records_are_kept (awaiting 50 "withdraw" 20) (t1, Message 7 "confirm" false)
           7 (registered 50)).
  reflexivity.
Defined.

(** ** What a step can do to the collection *)

(** A step leaves the collection as it is, appends the record of a user who
    had none, or rewrites balance and last transaction of one user. *)
Lemma step_users w e :
  users (step w e) = users w
  \/ (exists uid, find_one uid (users w) = None
                  /\ users (step w e) = insert_one (new_user uid) (users w))
  \/ (exists uid v s, users (step w e) = update_one uid (ledger_write v s) (users w)).
Proof.
  destruct e as [now [uid|uid data|uid text c]]; unfold step; simpl.
  - unfold start. run_handler. case_bool_decide as Hf; simpl; [by left|].
    right; left. exists uid. split; [|reflexivity].
    destruct (find_one uid (users w)); [|done]. destruct Hf; eauto.
  - unfold button. run_handler.
    repeat (case_match; simpl in *; simplify_eq); by left.
  - unfold handle_amount, handle_confirmation, handle_invalid_response. run_handler.
    repeat (case_match; simpl in *; simplify_eq);
      first [by left | right; right; do 3 eexists; reflexivity].
Qed.

Lemma find_one_None_records uid c : find_one uid c = None -> records uid c = [].
Proof.
  unfold records. induction c as [|d c IH]; simpl; [done|].
  destruct (matches uid d); [done|auto].
Qed.

Lemma records_update_one uid uid' sets c :
  sets !! "user_id" = None ->
  length (records uid (update_one uid' sets c)) = length (records uid c).
Proof.
  intros Hs. unfold records. induction c as [|d c IH]; simpl; [done|].
  destruct (matches uid' d); simpl.
  - rewrite matches_set by exact Hs. by destruct (matches uid d).
  - destruct (matches uid d); simpl; by rewrite IH.
Qed.

Lemma records_insert_one uid uid' c :
  find_one uid' c = None ->
  (length (records uid c) <= 1)%nat ->
  (length (records uid (insert_one (new_user uid') c)) <= 1)%nat.
Proof.
  intros Hn Hle. unfold records, insert_one in *. rewrite List.filter_app, length_app.
  simpl. destruct (matches uid (new_user uid')) eqn:Hm; simpl; [|lia].
  apply matches_new_user in Hm as ->.
  apply find_one_None_records in Hn. unfold records in Hn. rewrite Hn. simpl. lia.
Qed.

(** In every reachable world a user has at most one record: [start] inserts
    only after a lookup that found nothing, and a ledger write keeps the
    [user_id] of the record it rewrites. *)
Theorem one_record_per_user w uid :
  reachable w -> (length (records uid (users w)) <= 1)%nat.
Proof.
  intros [es ->]. revert uid.
  induction es as [|e es IH] using rev_ind; intros uid; [simpl; lia|].
  unfold run in *. rewrite fold_left_app. simpl.
  destruct (step_users (fold_left step es initial) e)
    as [->|[(x & Hx & ->)|(x & v & s & ->)]].
  - apply IH.
  - by apply records_insert_one.
  - rewrite records_update_one by reflexivity. apply IH.
Qed.

Lemma one_record_per_user_witness :
  (length (records 7 (users (run initial
     [(t1, StartCommand 7); (t1, StartCommand 7); (t1, StartCommand 8)]))) <= 1)%nat.
Proof.
  apply (one_record_per_user
           (run initial [(t1, StartCommand 7); (t1, StartCommand 7); (t1, StartCommand 8)]) 7).
  eexists. reflexivity.
Defined.

Lemma handle_invalid_response_returns uid w :
  fst (handle_invalid_response uid w) = inr tt.
Proof. unfold handle_invalid_response. run_handler. by case_match. Qed.

Lemma handle_amount_returns uid text w : fst (handle_amount uid text w) = inr tt.
Proof.
  unfold handle_amount, handle_invalid_response. run_handler.
  assert (Hexn : forall e, Py.int (Py.strip text) = inl e -> e = Py.ValueError).
  { unfold Py.int. intros e. repeat case_match; congruence. }
  destruct (Py.int (Py.strip text)) as [e|z] eqn:Hint; simpl.
  - rewrite (Hexn e eq_refl). by repeat case_match.
  - by repeat (case_match; simpl in *; simplify_eq).
Qed.

Lemma handle_confirmation_returns now uid text w d :
  Inv w -> find_one uid (users w) = Some d ->
  fst (handle_confirmation now uid text w) = inr tt.
Proof.
  intros [Hdocs Hs] Hd. rewrite Forall_forall in Hdocs.
  destruct (Hdocs d (find_one_elem _ _ _ Hd)) as [(b & Hb & _) _].
  destruct (Hs uid) as [_ Hconf].
  unfold handle_confirmation. run_handler.
  fold (confirming (session uid w)).
  destruct (confirming (session uid w)) eqn:Hc; [|reflexivity].
  destruct (Hconf eq_refl) as [(a & Ha & Hpos) Hact]. simpl.
  rewrite Hd, Ha; simpl. rewrite Hb; simpl.
  destruct Hact as [-> | ->]; simpl;
    repeat (case_match; simpl in *; simplify_eq); reflexivity.
Qed.



(** A button pressed while the confirmation is awaited replaces the action
    and keeps flag and amount: the amount validated for one action is then
    applied to the other. Here a pending operation of any kind is turned
    into a withdrawal by the button before "confirm". *)
Theorem action_switched_before_confirmation now now' uid w d b a :
  confirming (session uid w) = true ->
  session uid w !! "amount" = Some (Py.Int a) -> 0 < a <= b ->
  find_one uid (users w) = Some d -> d !! "balance" = Some (Py.Int b) ->
  let w1 := step w (now, CallbackQuery uid "withdraw") in
  let r := dispatch now' (Message uid "confirm" false) w1 in
  fst r = inr tt
  /\ persisted uid "balance" (snd r) = Some (Py.Int (b - a))
  /\ persisted uid "last_transaction" (snd r)
     = Some (Py.Str ("Withdrew " +:+ pretty a +:+ " on " +:+ DateTime.str now')).
Proof.
  intros Hc Ha Hab Hd Hb. cbv zeta.
  set (w1 := step w (now, CallbackQuery uid "withdraw")).
  assert (Hu1 : users w1 = users w) by reflexivity.
  assert (Hs1 : session uid w1 = <["action" := Py.Str "withdraw"]> (session uid w)).
  { unfold w1, step; simpl. unfold session; simpl. by rewrite lookup_insert_eq. }
  assert (Hc1 : confirming (session uid w1) = true).
  { rewrite Hs1. unfold confirming in *. by rewrite lookup_insert_ne. }
  assert (Ha1 : session uid w1 !! "amount" = Some (Py.Int a)).
  { rewrite Hs1. by rewrite lookup_insert_ne. }
  assert (Hv1 : session uid w1 !! "action" = Some (Py.Str "withdraw")).
  { rewrite Hs1. by rewrite lookup_insert_eq. }
  assert (Hd1 : find_one uid (users w1) = Some d) by (by rewrite Hu1).
  destruct (handle_confirmation_confirm now' uid "confirm" w1 d b a "withdraw"
              eq_refl Hc1 Ha1 Hd1 Hb Hv1) as (_ & _ & Hyes).
  change (dispatch now' (Message uid "confirm" false) w1)
    with (handle_confirmation now' uid "confirm" w1).
  rewrite (Hyes eq_refl Hab); simpl. split; [reflexivity|].
  split; eapply persisted_update_one; try exact Hd1; reflexivity.
Qed.

Lemma action_switched_before_confirmation_witness :
  let w1 := step (awaiting 50 "deposit" 20) (t1, CallbackQuery 7 "withdraw") in
  let r := dispatch t1 (Message 7 "confirm" false) w1 in
  fst r = inr tt
  /\ persisted 7 "balance" (snd r) = Some (Py.Int (50 - 20))
  /\ persisted 7 "last_transaction" (snd r)
     = Some (Py.Str ("Withdrew " +:+ pretty 20 +:+ " on " +:+ DateTime.str t1)).
Proof.
  apply (action_switched_before_confirmation t1 t1 7 (awaiting 50 "deposit" 20)
           (registered 50) 50 20); try reflexivity; lia.
Defined.

(** ** The text of a time stamp *)

Lemma string_app_nil_r s : s +:+ "" = s.
Proof.
  induction s as [|c s IH]; [reflexivity|].
  change (String c s +:+ "") with (String c (s +:+ "")). by rewrite IH.
Qed.

Lemma string_app_assoc s t u : (s +:+ t) +:+ u = s +:+ t +:+ u.
Proof.
  induction s as [|c s IH]; [reflexivity|].
  change ((String c s +:+ t) +:+ u) with (String c ((s +:+ t) +:+ u)).
  by rewrite IH.
Qed.

Lemma string_forall_app P s t :
  string_forall P (s +:+ t) = string_forall P s && string_forall P t.
Proof.
  induction s as [|c s IH]; [reflexivity|].
  change (String c s +:+ t) with (String c (s +:+ t)). simpl.
  by rewrite IH, andb_assoc.
Qed.

Lemma string_forall_impl (P Q : ascii -> bool) s :
  (forall c, P c = true -> Q c = true) ->
  string_forall P s = true -> string_forall Q s = true.
Proof.
  intros HPQ. induction s as [|c s IH]; simpl; [done|].
  intros [Hc Hs]%andb_true_iff. rewrite (HPQ c Hc). auto.
Qed.

Lemma pretty_N_char_digit x : Py.isdigit (pretty_N_char x) = true.
Proof. unfold pretty_N_char. by repeat case_match. Qed.

Lemma pretty_N_go_digits x s :
  string_forall Py.isdigit s = true -> string_forall Py.isdigit (pretty_N_go x s) = true.
Proof.
  revert s. induction (N.lt_wf_0 x) as [x _ IH]; intros s Hs.
  destruct (decide (x = 0)%N) as [->|Hx]; [by rewrite pretty_N_go_0|].
  rewrite pretty_N_go_step by lia. apply IH.
  - apply N.div_lt; lia.
  - simpl. by rewrite pretty_N_char_digit.
Qed.

(** A printed integer is a run of digits after an optional dash. *)
Lemma pretty_Z_numeric (z : Z) : string_forall numeric (pretty z) = true.
Proof.
  assert (HN : forall n : N, string_forall numeric (pretty n) = true).
  { intros n. unfold pretty, pretty_N. case_decide; [reflexivity|].
    eapply string_forall_impl; [|by apply pretty_N_go_digits].
    intros c Hc. unfold numeric. by rewrite Hc. }
  destruct z as [|p|p]; [reflexivity|apply HN|].
  change (pretty (Z.neg p)) with ("-" +:+ pretty (N.pos p)).
  rewrite string_forall_app, HN. reflexivity.
Qed.

Lemma pretty_Z_plain (z : Z) : string_forall plain (pretty z) = true.
Proof.
  eapply string_forall_impl; [|apply pretty_Z_numeric].
  intros c. unfold numeric, plain. intros [-> | ->]%orb_true_iff; [reflexivity|].
  by rewrite orb_true_r.
Qed.

Lemma zfill_plain n (z : Z) : string_forall plain (DateTime.zfill n z) = true.
Proof.
  unfold DateTime.zfill. rewrite string_forall_app, pretty_Z_plain, andb_true_r.
  induction (n - String.length (pretty z))%nat as [|k IH]; [reflexivity|].
  simpl. destruct (replicate k "0") as [|x l]; [reflexivity|].
  by rewrite !string_forall_app, IH.
Qed.

(** Printed on a whole second, a time stamp is made of digits, dashes,
    colons and one blank. *)
Lemma str_whole_second_plain now :
  DateTime.microsecond now = 0 -> string_forall plain (DateTime.str now) = true.
Proof.
  intros Hus. unfold DateTime.str. rewrite Hus. simpl.
  rewrite !string_forall_app, !zfill_plain. reflexivity.
Qed.

Lemma plain_no_fraction s :
  string_forall plain s = true -> DateTime.has_fraction s = false.
Proof.
  induction s as [|c s IH]; simpl; [done|].
  intros [Hc Hs]%andb_true_iff. rewrite (IH Hs), orb_false_r.
  destruct (Ascii.eqb_spec c ".") as [->|_]; [discriminate|reflexivity].
Qed.

(** *** Splitting the stored text *)

Lemma prefix_cons a s b t :
  String.prefix (String a s) (String b t)
  = if ascii_dec a b then String.prefix s t else false.
Proof. reflexivity. Qed.

Lemma split_go_step cur c s :
  String.prefix " on " (String c s) = false ->
  Py.split_go " on " 0 cur (String c s) = Py.split_go " on " 0 (cur +:+ String c "") s.
Proof. intros H. cbn [Py.split_go]. by rewrite H. Qed.

(** A piece without a blank holds no separator and starts none. *)
Lemma split_go_plain_piece cur x rest :
  string_forall (fun c => negb (Ascii.eqb c " ")) x = true ->
  Py.split_go " on " 0 cur (x +:+ rest) = Py.split_go " on " 0 (cur +:+ x) rest.
Proof.
  revert cur. induction x as [|c x IH]; intros cur.
  - intros _. by rewrite string_app_nil_r.
  - simpl string_forall. intros [Hc Hx]%andb_true_iff.
    change (String c x +:+ rest) with (String c (x +:+ rest)).
    rewrite split_go_step.
    + rewrite (IH _ Hx). f_equal. by rewrite string_app_assoc.
    + rewrite prefix_cons. destruct (ascii_dec " " c) as [<-|_]; [discriminate|reflexivity].
Qed.

(** A text without the letter o holds no separator: it is one piece. *)
Lemma split_go_last_piece cur y :
  string_forall (fun c => negb (Ascii.eqb c "o")) y = true ->
  Py.split_go " on " 0 cur y = [cur +:+ y].
Proof.
  revert cur. induction y as [|c y IH]; intros cur.
  - intros _. simpl. by rewrite string_app_nil_r.
  - simpl string_forall. intros [Hc Hy]%andb_true_iff.
    rewrite split_go_step.
    + rewrite (IH _ Hy). f_equal. by rewrite string_app_assoc.
    + rewrite prefix_cons. destruct (ascii_dec " " c) as [_|_]; [|reflexivity].
      destruct y as [|c' y]; [reflexivity|]. rewrite prefix_cons.
      simpl in Hy. apply andb_true_iff in Hy as [Hc' _].
      destruct (ascii_dec "o" c') as [<-|_]; [discriminate|reflexivity].
Qed.

(** Any printed time stamp is free of the letter o. *)
Lemma str_no_o now :
  string_forall (fun c => negb (Ascii.eqb c "o")) (DateTime.str now) = true.
Proof.
  assert (Hz : forall n z,
             string_forall (fun c => negb (Ascii.eqb c "o")) (DateTime.zfill n z) = true).
  { intros n z. eapply string_forall_impl; [|apply zfill_plain].
    intros c. unfold plain, Py.isdigit.
    destruct (Ascii.eqb_spec c "o") as [->|_]; [discriminate|reflexivity]. }
  unfold DateTime.str. rewrite !string_forall_app, !Hz. simpl.
  destruct (DateTime.microsecond now =? 0); [reflexivity|].
  by rewrite string_forall_app, Hz.
Qed.

(** The text a ledger write stores splits into the summary and the time
    stamp. *)
Lemma split_stored (verb : string) (a : Z) now :
  string_forall (fun c => negb (Ascii.eqb c " ")) verb = true ->
  Py.split " on " (verb +:+ " " +:+ pretty a +:+ " on " +:+ DateTime.str now)
  = [verb +:+ " " +:+ pretty a; DateTime.str now].
Proof.
  intros Hverb. unfold Py.split.
  rewrite (split_go_plain_piece _ verb) by exact Hverb.
  change (" " +:+ pretty a +:+ " on " +:+ DateTime.str now)
    with (String " " (pretty a +:+ " on " +:+ DateTime.str now)).
  assert (Hnum := pretty_Z_numeric a).
  rewrite split_go_step.
  - rewrite (split_go_plain_piece _ (pretty a)).
    + change (" on " +:+ DateTime.str now) with (String " " ("on " +:+ DateTime.str now)).
      cbn [Py.split_go]. rewrite prefix_cons. destruct (ascii_dec " " " ") as [_|[]]; [|done].
      change ("on " +:+ DateTime.str now)
        with (String "o" (String "n" (String " " (DateTime.str now)))).
      rewrite !prefix_cons. simpl String.prefix.
      destruct (ascii_dec "o" "o") as [_|[]]; [|done].
      destruct (ascii_dec "n" "n") as [_|[]]; [|done].
      destruct (ascii_dec " " " ") as [_|[]]; [|done].
      assert (Hp : forall t, String.prefix "" t = true) by (by intros []).
      rewrite Hp. simpl String.length. cbn [Nat.sub Py.split_go].
      rewrite split_go_last_piece by apply str_no_o.
      by rewrite !string_app_assoc.
    + eapply string_forall_impl; [|exact Hnum].
      intros c. unfold numeric, Py.isdigit.
      destruct (Ascii.eqb_spec c " ") as [->|_]; [discriminate|reflexivity].
  - rewrite prefix_cons. destruct (ascii_dec " " " ") as [_|[]]; [|done].
    destruct (pretty a) as [|c p]; [reflexivity|].
    change (String c p +:+ " on " +:+ DateTime.str now)
      with (String c (p +:+ " on " +:+ DateTime.str now)).
    rewrite prefix_cons. simpl in Hnum. apply andb_true_iff in Hnum as [Hc _].
    destruct (ascii_dec "o" c) as [<-|_]; [discriminate|reflexivity].
Qed.

(** ** The inquiry after a ledger write *)

(** The inquiry on a record whose last transaction splits into a summary
    and a time stamp: it raises what [strptime] raises on the stamp, or
    shows the balance, the summary and the stamp in display form. *)
Lemma inquiry_of_stored now uid w d s summary stamp bal :
  find_one uid (users w) = Some d ->
  d !! "last_transaction" = Some (Py.Str s) -> s <> no_transactions ->
  Py.split " on " s = [summary; stamp] ->
  d !! "balance" = Some bal ->
  dispatch now (CallbackQuery uid "check_balance") w
  = match DateTime.strptime stamp with
    | inl e => (inl e, World (users w) (user_data w) (outbox w ++ [Answer]))
    | inr t =>
        (inr tt,
         World (users w) (user_data w)
               ((outbox w ++ [Answer])
                ++ [EditMessageText
                      ("Your balance is: " +:+ Py.str bal +:+ newline
                       +:+ "Last transaction: " +:+ summary +:+ " on "
                       +:+ DateTime.strftime_display t)]))
    end.
Proof.
  intros Hd Hs Hne Hsplit Hb. simpl. unfold button. run_handler.
  rewrite Hd; simpl. rewrite Hs; simpl.
  unfold Py.eqb; simpl. rewrite bool_decide_eq_false_2 by congruence. simpl.
  rewrite Hsplit; simpl.
  destruct (DateTime.strptime stamp) as [e|t]; simpl; [reflexivity|].
  rewrite Hb. reflexivity.
Qed.



(** ** Reading back a printed time stamp *)

Lemma zeros_concat k : String.concat "" (replicate k "0") = zeros k.
Proof.
  induction k as [|k IH]; [reflexivity|]. simpl.
  rewrite <- IH. by destruct (replicate k "0").
Qed.

Lemma zeros_snoc k s : zeros k +:+ String "0" s = zeros (S k) +:+ s.
Proof.
  induction k as [|k IH]; [reflexivity|].
  change (zeros (S k) +:+ String "0" s) with (String "0" (zeros k +:+ String "0" s)).
  by rewrite IH.
Qed.

Lemma length_app_string s t : String.length (s +:+ t) = (String.length s + String.length t)%nat.
Proof.
  induction s as [|c s IH]; [reflexivity|].
  change (String c s +:+ t) with (String c (s +:+ t)). simpl. by rewrite IH.
Qed.

Lemma length_zeros k : String.length (zeros k) = k.
Proof. induction k as [|k IH]; simpl; congruence. Qed.

(** The [n] digits of a number below [10^n] are its printed form after as
    many zeros as it takes to fill [n] places. *)
Lemma fixed_pretty n : forall x s,
  (x < 10 ^ N.of_nat n)%N ->
  exists k, fixed n x s = zeros k +:+ pretty_N_go x s
            /\ (String.length (pretty_N_go x s) + k = n + String.length s)%nat.
Proof.
  induction n as [|n IH]; intros x s Hx.
  - assert (x = 0%N) as -> by (simpl in Hx; lia). exists 0%nat. rewrite pretty_N_go_0. split; [reflexivity|simpl; lia].
  - assert (Hq : (x `div` 10 < 10 ^ N.of_nat n)%N).
    { apply N.Div0.div_lt_upper_bound.
      rewrite Nat2N.inj_succ, N.pow_succ_r' in Hx. lia. }
    destruct (IH (x `div` 10)%N (String (pretty_N_char (x `mod` 10)) s) Hq)
      as (k & Hk & Hlen).
    cbn [fixed]. destruct (decide (x = 0)%N) as [->|Hpos].
    + exists (S k). rewrite Hk. change (0 `div` 10)%N with 0%N.
      rewrite !pretty_N_go_0 in *. split; [apply zeros_snoc|].
      simpl in Hlen |- *. lia.
    + exists k. rewrite (pretty_N_go_step x) by lia. split; [exact Hk|].
      simpl in Hlen. lia.
Qed.

Lemma zfill_fixed n z :
  (0 < n)%nat -> 0 <= z < 10 ^ Z.of_nat n ->
  DateTime.zfill n z = fixed n (Z.to_N z) "".
Proof.
  intros Hn Hz.
  assert (Hx : (Z.to_N z < 10 ^ N.of_nat n)%N).
  { apply N2Z.inj_lt. rewrite N2Z.inj_pow, Z2N.id, nat_N_Z by lia. lia. }
  destruct (fixed_pretty n (Z.to_N z) "" Hx) as (k & -> & Hlen).
  unfold DateTime.zfill. rewrite zeros_concat.
  destruct z as [|p|p]; [| |lia].
  - change (Z.to_N 0) with 0%N in *. rewrite pretty_N_go_0 in *.
    assert (k = n) as -> by (simpl in Hlen; lia).
    change (pretty 0) with "0". simpl String.length.
    destruct n as [|n]; [lia|].
    replace (S n - 1)%nat with n by lia. apply zeros_snoc.
  - change (pretty (Z.pos p)) with (pretty_N_go (N.pos p) "").
    change (Z.to_N (Z.pos p)) with (N.pos p) in *.
    simpl in Hlen. by replace (n - String.length (pretty_N_go (N.pos p) ""))%nat with k by lia.
Qed.

Lemma append_cons c s t : String c s +:+ t = String c (s +:+ t).
Proof. reflexivity. Qed.

Lemma append_nil t : "" +:+ t = t.
Proof. reflexivity. Qed.

(** A digit character and its value. *)
Lemma digit_char_value v :
  (v < 10)%N ->
  Py.isdigit (pretty_N_char v) = true
  /\ Py.digit_val (pretty_N_char v) = Z.of_N v.
Proof.
  intros Hv. destruct v as [|p]; [by split|].
  do 4 (destruct p as [p|p|]; try lia; try (by split)).
Qed.

Lemma in_range_digit v : (v < 10)%N -> DateTime.in_range 0 9 (pretty_N_char v) = true.
Proof.
  intros Hv. unfold DateTime.in_range.
  destruct (digit_char_value v Hv) as [-> ->]. simpl. lia.
Qed.

Ltac digit_facts :=
  repeat match goal with
         | |- context [DateTime.in_range 0 9 (pretty_N_char ?v)] =>
             rewrite (in_range_digit v) by (apply N.mod_lt; lia)
         | |- context [Py.isdigit (pretty_N_char ?v)] =>
             rewrite (proj1 (digit_char_value v (N.mod_lt _ 10 ltac:(lia))))
         | |- context [Py.digit_val (pretty_N_char ?v)] =>
             rewrite (proj2 (digit_char_value v (N.mod_lt _ 10 ltac:(lia))))
         end.

(** The year is read back from its four digits. *)
Lemma pY_zfill {R} (k : Z -> string -> option R) y rest :
  0 <= y < 10000 -> DateTime.pY k (DateTime.zfill 4 y +:+ rest) = k y rest.
Proof.
  intros Hy. rewrite zfill_fixed by lia. cbn [fixed].
  rewrite !append_cons, append_nil. unfold DateTime.pY, DateTime.one.
  digit_facts. f_equal.
  set (x := Z.to_N y). assert (Hx : y = Z.of_N x) by (unfold x; lia).
  rewrite Hx in Hy |- *. clearbody x. clear Hx.
  rewrite !N2Z.inj_mod, !N2Z.inj_div. simpl Z.of_N.
  Z.to_euclidean_division_equations. lia.
Qed.

(** The fraction is read back from its six digits. *)
Lemma pf_zfill {R} (k : Z -> string -> option R) us :
  0 <= us < 1000000 -> DateTime.pf k (DateTime.zfill 6 us) = k us "".
Proof.
  intros Hus. rewrite zfill_fixed by lia. cbn [fixed].
  unfold DateTime.pf. cbn [DateTime.digits_upto]. digit_facts.
  cbn [DateTime.digits_upto]. unfold DateTime.fraction_value.
  cbn [DateTime.digits_value String.length Nat.sub]. digit_facts.
  f_equal.
  set (x := Z.to_N us). assert (Hx : us = Z.of_N x) by (unfold x; lia).
  rewrite Hx in Hus |- *. clearbody x. clear Hx.
  rewrite !N2Z.inj_mod, !N2Z.inj_div. simpl Z.of_N. simpl Z.pow.
  Z.to_euclidean_division_equations. lia.
Qed.

Ltac enumerate v :=
  destruct v as [|v|v]; try lia;
  repeat (destruct v as [v|v|]; try lia).

Ltac read_two_digits H :=
  match goal with
  | |- context [DateTime.zfill ?n ?v] =>
      let s := eval vm_compute in (DateTime.zfill n v) in
      change (DateTime.zfill n v) with s
  end;
  rewrite ?append_cons, ?append_nil;
  cbv [DateTime.pm DateTime.pd DateTime.pH DateTime.pM DateTime.pS DateTime.spaces1
       DateTime.spaces DateTime.two DateTime.one DateTime.lit DateTime.in_range];
  simpl;
  repeat match goal with
         | |- context [Py.digit_val ?c] =>
             let v := eval vm_compute in (Py.digit_val c) in
             change (Py.digit_val c) with v
         end;
  repeat match goal with
         | |- context [10 * ?a + ?b] =>
             let v := eval vm_compute in (10 * a + b) in
             change (10 * a + b) with v
         end;
  rewrite H; reflexivity.

Section Fields.
Context {R : Type} (k : Z -> string -> option R) (rest : string) (r : R).

Lemma pm_zfill v :
  1 <= v <= 12 -> k v rest = Some r ->
  DateTime.pm k (DateTime.zfill 2 v +:+ rest) = Some r.
Proof. intros Hv Hk. enumerate v; read_two_digits Hk. Qed.

Lemma pd_zfill v :
  1 <= v <= 31 -> k v rest = Some r ->
  DateTime.pd k (DateTime.zfill 2 v +:+ rest) = Some r.
Proof. intros Hv Hk. enumerate v; read_two_digits Hk. Qed.

Lemma pH_zfill v :
  0 <= v <= 23 -> k v rest = Some r ->
  DateTime.spaces1 (DateTime.pH k) (" " +:+ DateTime.zfill 2 v +:+ rest) = Some r.
Proof. intros Hv Hk. enumerate v; read_two_digits Hk. Qed.

Lemma pM_zfill v :
  0 <= v <= 59 -> k v rest = Some r ->
  DateTime.pM k (DateTime.zfill 2 v +:+ rest) = Some r.
Proof. intros Hv Hk. enumerate v; read_two_digits Hk. Qed.

Lemma pS_zfill v :
  0 <= v <= 59 -> k v rest = Some r ->
  DateTime.pS k (DateTime.zfill 2 v +:+ rest) = Some r.
Proof. intros Hv Hk. enumerate v; read_two_digits Hk. Qed.
End Fields.

Lemma lit_append {R} a (k : string -> option R) s :
  DateTime.lit a k (String a "" +:+ s) = k s.
Proof. rewrite append_cons, append_nil. simpl. by rewrite Ascii.eqb_refl. Qed.

Lemma days_in_month_le y m : DateTime.days_in_month y m <= 31.
Proof. unfold DateTime.days_in_month. repeat case_match; lia. Qed.

(** A valid time stamp with a fraction, once printed, matches the format
    as a whole and gives back every field. *)
Lemma match_format_str t :
  DateTime.valid t = true -> DateTime.microsecond t <> 0 ->
  DateTime.match_format (DateTime.str t) = Some (t, "").
Proof.
  destruct t as [Y m d H M S us]. unfold DateTime.valid. cbn [DateTime.year
    DateTime.month DateTime.day DateTime.hour DateTime.minute DateTime.second
    DateTime.microsecond].
  intros Hv Hus. repeat (apply andb_true_iff in Hv as [Hv ?]).
  pose proof (days_in_month_le Y m).
  unfold DateTime.str. cbn [DateTime.year DateTime.month DateTime.day DateTime.hour
    DateTime.minute DateTime.second DateTime.microsecond].
  replace (us =? 0) with false by lia.
  unfold DateTime.match_format.
  rewrite pY_zfill by lia. rewrite lit_append.
  apply pm_zfill; [lia|]. rewrite lit_append.
  apply pd_zfill; [lia|].
  apply pH_zfill; [lia|]. rewrite lit_append.
  apply pM_zfill; [lia|]. rewrite lit_append.
  apply pS_zfill; [lia|]. rewrite lit_append.
  rewrite pf_zfill by lia. reflexivity.
Qed.

(** Parsing a printed time stamp gives the time stamp back, when it is a
    valid one and not on a whole second. *)
Lemma strptime_str t :
  DateTime.valid t = true -> DateTime.microsecond t <> 0 ->
  DateTime.strptime (DateTime.str t) = inr t.
Proof.
  intros Hv Hus. unfold DateTime.strptime.
  by rewrite (match_format_str t Hv Hus), Hv.
Qed.



(** The inquiry on a record that has no transaction yet, as [start] leaves
    it, raises AttributeError: the field is present with the value [None],
    so the default text of [get] is not used and [None] is split. *)
Theorem inquiry_before_first_write now uid w d :
  find_one uid (users w) = Some d ->
  d !! "last_transaction" = Some Py.None_ ->
  dispatch now (CallbackQuery uid "check_balance") w
  = (inl Py.AttributeError, World (users w) (user_data w) (outbox w ++ [Answer])).
Proof.
  intros Hd Hn. simpl. unfold button. run_handler.
  rewrite Hd; simpl. rewrite Hn; simpl. reflexivity.
Qed.

Lemma inquiry_before_first_write_witness :
  dispatch t1 (CallbackQuery 7 "check_balance") (awaiting 50 "deposit" 20)
  = (inl Py.AttributeError,
     World (users (awaiting 50 "deposit" 20)) (user_data (awaiting 50 "deposit" 20))
           (outbox (awaiting 50 "deposit" 20) ++ [Answer])).
Proof.
  apply (inquiry_before_first_write t1 7 (awaiting 50 "deposit" 20) (registered 50));
    reflexivity.
Defined.

(** In a reachable world the branch of the inquiry that shows
    "No transactions yet" is never taken: every record has the field
    [last_transaction], and what it holds is never equal to that text. *)
Theorem no_transactions_branch_is_dead w uid d :
  reachable w -> find_one uid (users w) = Some d ->
  exists v, get_default (Some d) "last_transaction" (Py.Str no_transactions) = inr v
            /\ Py.eqb v (Py.Str no_transactions) = false.
Proof.
  intros Hr Hd. destruct (Inv_reachable w Hr) as [Hu _]. rewrite Forall_forall in Hu.
  destruct (Hu d (find_one_elem _ _ _ Hd)) as [_ [Hn|(s & Hs & Hne)]]; simpl.
  - rewrite Hn. by exists Py.None_.
  - rewrite Hs. exists (Py.Str s). split; [reflexivity|].
    unfold Py.eqb; simpl. apply bool_decide_eq_false_2. congruence.
Qed.

Lemma no_transactions_branch_is_dead_witness :
  exists v, get_default (Some (new_user 7)) "last_transaction" (Py.Str no_transactions)
            = inr v
            /\ Py.eqb v (Py.Str no_transactions) = false.
Proof.
  apply (no_transactions_branch_is_dead (run initial [(t1, StartCommand 7)]) 7 (new_user 7)).
  - eexists. reflexivity.
  - reflexivity.
Defined.
